(** * Vokasi Assistant (RAG chat application): model of [app.py]

    The script wires a Streamlit chat page to a retriever over a persisted
    vector store and to a hosted chat model.  Python strings are modelled as
    [string], dictionaries with string keys as [gmap string _], the script's
    side effects (session state, resource cache, display calls, provider
    calls) as an explicit state threaded through a small state-and-exception
    monad. *)

From Stdlib Require Import String Ascii List ZArith Lia.
From stdpp Require Import base option list strings gmap sorting.

(* stdpp freezes [String.append] under [simpl]; the proofs below compute
   with it on constructors. *)
#[local] Arguments String.append !s1 s2 : simpl nomatch.

(** ** Strings *)

Module Str.

Definition LF : string := String (ascii_of_nat 10) EmptyString.
Definition DQ : string := String (ascii_of_nat 34) EmptyString.

(** Python's [sep.join(parts)]. *)
Fixpoint join (sep : string) (parts : list string) : string :=
  match parts with
  | [] => EmptyString
  | [x] => x
  | x :: rest => x +:+ sep +:+ join sep rest
  end.

(** Python's [needle in haystack] for strings, as a proposition. *)
Definition occurs_in (needle haystack : string) : Prop :=
  exists before after, haystack = before +:+ needle +:+ after.

(** Truthiness of a [str]: only the empty string is falsy. *)
Definition truthy (s : string) : bool :=
  match s with EmptyString => false | String _ _ => true end.

End Str.

(** ** Exceptions and results *)

(** The Python exceptions the script can meet.  [Exception msg] stands for
    any other exception raised inside Streamlit or a provider library, with
    [msg] its [str(e)].  [Unmodelled] is not a Python exception: it marks a template
    outside the fragment of the format mini-language modelled below, and is
    never produced on the script's own template ([prompt_format_total]). *)
Inductive exn : Type :=
| KeyError (key : string)
| ValueError (msg : string)
| IndexError (msg : string)
| Exception (msg : string)
| Unmodelled.

Inductive result (A : Type) : Type :=
| Ok (a : A)
| Err (e : exn).
Arguments Ok {A} a.
Arguments Err {A} e.

Definition result_map {A B : Type} (f : A -> B) (r : result A) : result B :=
  match r with
  | Ok a => Ok (f a)
  | Err e => Err e
  end.

(** ** [PromptTemplate] with the default f-string format

    [PromptTemplate.format] with keyword arguments [kwargs] is [str.format]
    on the template:
    [{{] and [}}] are escaped braces, [{name}] is replaced by
    [kwargs[name]], and the substituted values are not scanned again. *)

Module Template.

(** What the scanner yields, in order.  It is lazy in Python: text after a
    malformed spot is never read, and fields before it are substituted (and
    may raise) first; [Malformed] and [OutsideFragment] therefore end the
    list they appear in. *)
Inductive piece : Type :=
| Lit (text : string)
| Field (name : string)
| Malformed (msg : string)
| OutsideFragment.

Definition push_char (c : ascii) (ps : list piece) : list piece :=
  match ps with
  | Lit s :: rest => Lit (String c s) :: rest
  | _ => Lit (String c EmptyString) :: ps
  end.

(** Characters that start a conversion, a format spec, an attribute or index
    access, or a nested field: the model stops on them. *)
Definition field_special (c : ascii) : bool :=
  match c with
  | "{"%char | "!"%char | ":"%char | "."%char | "["%char | "]"%char => true
  | _ => false
  end.

(** The scanner of [str.format].  [field = None]: in literal text;
    [field = Some n]: inside a replacement field whose name so far is [n]. *)
Fixpoint scan (field : option string) (s : string) : list piece :=
  match field with
  | None =>
      match s with
      | EmptyString => []
      | String "{"%char (String "{"%char rest) => push_char "{"%char (scan None rest)
      | String "{"%char EmptyString => [Malformed "Single '{' encountered in format string"]
      | String "{"%char rest => scan (Some EmptyString) rest
      | String "}"%char (String "}"%char rest) => push_char "}"%char (scan None rest)
      | String "}"%char _ => [Malformed "Single '}' encountered in format string"]
      | String c rest => push_char c (scan None rest)
      end
  | Some name =>
      match s with
      | EmptyString => [Malformed "expected '}' before end of string"]
      | String "}"%char rest => Field name :: scan None rest
      | String c rest =>
          if field_special c then [OutsideFragment]
          else scan (Some (name +:+ String c EmptyString)) rest
      end
  end.

Definition parse (template : string) : list piece := scan None template.

Definition is_digit (c : ascii) : bool :=
  let n := nat_of_ascii c in (48 <=? n)%nat && (n <=? 57)%nat.

Fixpoint all_digits (s : string) : bool :=
  match s with
  | EmptyString => true
  | String c rest => is_digit c && all_digits rest
  end.

(** Only keyword arguments are passed, so an empty or numeric field name
    (a positional field) finds no argument. *)
Fixpoint render (ps : list piece) (kwargs : gmap string string) : result string :=
  match ps with
  | [] => Ok EmptyString
  | Lit s :: rest => result_map (String.append s) (render rest kwargs)
  | Field name :: rest =>
      if all_digits name
      then Err (IndexError "Replacement index out of range for positional args tuple")
      else match kwargs !! name with
           | None => Err (KeyError name)
           | Some v => result_map (String.append v) (render rest kwargs)
           end
  | Malformed msg :: _ => Err (ValueError msg)
  | OutsideFragment :: _ => Err Unmodelled
  end.

Definition format (template : string) (kwargs : gmap string string) : result string :=
  render (parse template) kwargs.

(** The replacement fields of a template, in order of appearance. *)
Definition fields (ps : list piece) : list string :=
  omap (fun p => match p with Field n => Some n | _ => None end) ps.

End Template.

(** ** Section 4 of the script: the prompt and the context joiner *)

Record Document : Type := { page_content : string }.

Definition prompt_template : string :=
  Str.LF +:+
  "Anda adalah asisten AI yang membantu. Jawablah pertanyaan pengguna HANYA berdasarkan konteks yang diberikan di bawah ini." +:+ Str.LF +:+
  "Jika informasi tidak ditemukan dalam konteks, katakan saja " +:+ Str.DQ +:+ "Maaf, saya tidak menemukan informasi mengenai hal tersebut di dalam dokumen." +:+ Str.DQ +:+ Str.LF +:+
  "Jangan mencoba mengarang jawaban." +:+ Str.LF +:+
  Str.LF +:+
  "Konteks:" +:+ Str.LF +:+
  "{context}" +:+ Str.LF +:+
  Str.LF +:+
  "Pertanyaan:" +:+ Str.LF +:+
  "{question}" +:+ Str.LF +:+
  Str.LF +:+
  "Jawaban yang Bermanfaat:" +:+ Str.LF.

Record PromptTemplate : Type :=
  { template : string; input_variables : list string }.

Definition prompt : PromptTemplate :=
  {| template := prompt_template; input_variables := ["context"; "question"] |}.

(** [prompt.invoke(input)]: every declared input variable must be present,
    then the template is formatted with the whole dictionary. *)
Definition prompt_invoke (p : PromptTemplate) (input : gmap string string) : result string :=
  match filter (fun v => input !! v = None) (input_variables p) with
  | [] => Template.format (template p) input
  | missing :: _ => Err (KeyError missing)
  end.

(** The separator ["\n\n"]: one blank line. *)
Definition separator : string := Str.LF +:+ Str.LF.

Definition format_docs (docs : list Document) : string :=
  Str.join separator (map page_content docs).

(** The dictionary built by the first step of the chain. *)
Definition chain_input (context question : string) : gmap string string :=
  <["context" := context]> (<["question" := question]> ∅).

(** The prompt composer: context and question to prompt text. *)
Definition compose (context question : string) : result string :=
  prompt_invoke prompt (chain_input context question).

(** The governing instructions, as the template words them. *)
Definition context_only_rule : string :=
  "Jawablah pertanyaan pengguna HANYA berdasarkan konteks yang diberikan di bawah ini.".

Definition refusal_phrase : string :=
  "Maaf, saya tidak menemukan informasi mengenai hal tersebut di dalam dokumen.".

Definition refusal_rule : string :=
  "Jika informasi tidak ditemukan dalam konteks, katakan saja " +:+
  Str.DQ +:+ refusal_phrase +:+ Str.DQ.

Definition no_fabrication_rule : string :=
  "Jangan mencoba mengarang jawaban.".

(** The three literal blocks of the template around its two fields. *)
Definition instructions : string :=
  Str.LF +:+
  "Anda adalah asisten AI yang membantu. " +:+ context_only_rule +:+ Str.LF +:+
  refusal_rule +:+ Str.LF +:+
  no_fabrication_rule +:+ Str.LF +:+
  Str.LF +:+
  "Konteks:" +:+ Str.LF.

Definition before_question : string :=
  Str.LF +:+ Str.LF +:+ "Pertanyaan:" +:+ Str.LF.

Definition answer_cue : string :=
  Str.LF +:+ Str.LF +:+ "Jawaban yang Bermanfaat:" +:+ Str.LF.

(** ** The world of the script *)

(** One chat turn, the dictionary [{"role": ..., "content": ...}]. *)
Record message : Type := { role : string; content : string }.

(** Where a display call lands, and what it draws. *)
Inductive container : Type :=
| Main
| Sidebar
| Chat (name : string).

Inductive element : Type :=
| title (body : string)
| caption (body : string)
| error (body : string) (icon : option string)
| info (body : string)
| subheader (body : string)
| button (label : string)
| chat_message (name : string)
| markdown (body : string)
| spinner (text : string)
| chat_input (placeholder : string)
| exception (e : exn).

(** Configuration objects built by [load_components]. *)
Record ChatGoogleGenerativeAI : Type :=
  { llm_model : string;
    llm_api_key : string;
    temperature : Stdlib.QArith.QArith_base.Q;
    convert_system_message_to_human : bool }.

Record GoogleGenerativeAIEmbeddings : Type :=
  { embedding_model : string; embedding_api_key : string }.

Record Chroma : Type :=
  { persist_directory : string;
    embedding_function : GoogleGenerativeAIEmbeddings }.

(** [vector_store.as_retriever(search_kwargs={'k': k})]. *)
Record Retriever : Type := { vectorstore : Chroma; search_k : nat }.

(** What the constructor of a client does: it returns, or it raises an
    exception, of which the script reads the text [str(e)] and nothing
    else. *)
Inductive built : Type :=
| Built
| Refused (text : string).

(** How the hosted services and the persisted index answer during one run
    of the script.  They are outside the repository: the script only calls
    them. *)
Record Providers : Type :=
  { new_llm : ChatGoogleGenerativeAI -> built;
    new_embeddings : GoogleGenerativeAIEmbeddings -> built;
    open_chroma : Chroma -> built;
    similarity_search : Chroma -> string -> nat -> result (list Document);
    generate : ChatGoogleGenerativeAI -> string -> result string }.

(** What the user did to trigger this run. *)
Record Widgets : Type :=
  { reset_clicked : bool; chat_submitted : option string }.

(** What [st.secrets] has to offer when the script reads it: the content of
    the secrets file, or nothing at all, when no secrets file is found or
    the file cannot be parsed; the access itself then raises
    [StreamlitSecretNotFoundError] (a [FileNotFoundError] in older
    releases), whose text is [msg]. *)
Inductive SecretsState : Type :=
| SecretsLoaded (content : gmap string string)
| SecretsUnavailable (msg : string).

(** One run of the script in a deployment whose secrets file was found:
    [secrets] is its content.  Runs without a usable secrets file are those
    of [run_from] at [SecretsUnavailable]. *)
Record Env : Type :=
  { secrets : gmap string string;
    providers : Providers;
    widgets : Widgets }.

Inductive call : Type :=
| NewLLM (cfg : ChatGoogleGenerativeAI)
| NewEmbeddings (cfg : GoogleGenerativeAIEmbeddings)
| OpenChroma (cfg : Chroma)
| Search (store : Chroma) (query : string) (k : nat)
| Generate (llm : ChatGoogleGenerativeAI) (prompt_text : string).

Definition components : Type :=
  (option ChatGoogleGenerativeAI * option Retriever)%type.

Record State : Type :=
  { (* st.session_state: the key "messages" may be absent *)
    session_messages : option (list message);
    (* st.cache_resource entry of load_components: replayed elements, value *)
    resource_cache : option (list (container * element) * components);
    (* display calls of the current run, oldest first *)
    display : list (container * element);
    (* calls made to the providers, oldest first *)
    calls : list call }.

Definition transcript (s : State) : list message :=
  default [] (session_messages s).

(** Field updates. *)
Definition with_messages (l : option (list message)) (s : State) : State :=
  {| session_messages := l;
     resource_cache := resource_cache s;
     display := display s;
     calls := calls s |}.

Definition with_cache (c : option (list (container * element) * components))
    (s : State) : State :=
  {| session_messages := session_messages s;
     resource_cache := c;
     display := display s;
     calls := calls s |}.

Definition with_display (d : list (container * element)) (s : State) : State :=
  {| session_messages := session_messages s;
     resource_cache := resource_cache s;
     display := d;
     calls := calls s |}.

Definition with_calls (cs : list call) (s : State) : State :=
  {| session_messages := session_messages s;
     resource_cache := resource_cache s;
     display := display s;
     calls := cs |}.

Definition show (shown : list (container * element)) (s : State) : State :=
  with_display (display s ++ shown) s.

Definition log (cs : list call) (s : State) : State :=
  with_calls (calls s ++ cs) s.

(** ** State-and-exception monad of a script run *)

Inductive outcome (A : Type) : Type :=
| Normal (a : A)
| Raised (e : exn)
| Stopped            (* st.stop() *)
| RerunRequested.    (* st.rerun() *)
Arguments Normal {A} a.
Arguments Raised {A} e.
Arguments Stopped {A}.
Arguments RerunRequested {A}.

Definition M (A : Type) : Type := State -> outcome A * State.

#[global] Instance M_ret : MRet M := fun A a s => (Normal a, s).

#[global] Instance M_bind : MBind M := fun A B k m s =>
  match m s with
  | (Normal a, s') => k a s'
  | (Raised e, s') => (Raised e, s')
  | (Stopped, s') => (Stopped, s')
  | (RerunRequested, s') => (RerunRequested, s')
  end.

Definition raise {A : Type} (e : exn) : M A := fun s => (Raised e, s).

Definition lift {A : Type} (r : result A) : M A :=
  match r with
  | Ok a => mret a
  | Err e => raise e
  end.

(** Calling a constructor. *)
Definition construct (b : built) : M unit :=
  match b with
  | Built => mret tt
  | Refused text => raise (Exception text)
  end.

(** [try: body except ...: handler]: only a raised exception reaches the
    handler; [st.stop()] and [st.rerun()] pass through. *)
Definition try_except {A : Type} (body : M A) (handler : exn -> M A) : M A :=
  fun s =>
    match body s with
    | (Raised e, s') => handler e s'
    | other => other
    end.

Definition st_stop {A : Type} : M A := fun s => (Stopped, s).
Definition st_rerun {A : Type} : M A := fun s => (RerunRequested, s).

Definition emit (c : container) (e : element) : M unit :=
  fun s => (Normal tt, show [(c, e)] s).

Definition record_call (c : call) : M unit :=
  fun s => (Normal tt, log [c] s).

Definition set_messages (l : list message) : M unit :=
  fun s => (Normal tt, with_messages (Some l) s).

(** Reading [st.session_state.messages]; an absent key is an
    [AttributeError], which is an [Exception]. *)
Definition get_messages : M (list message) :=
  fun s =>
    match session_messages s with
    | Some l => (Normal l, s)
    | None => (Raised (Exception "st.session_state has no attribute messages"), s)
    end.

(** [st.session_state.messages.append(m)]. *)
Definition append_message (m : message) : M unit :=
  l ← get_messages; set_messages (l ++ [m]).

Fixpoint for_each {A : Type} (l : list A) (body : A -> M unit) : M unit :=
  match l with
  | [] => mret tt
  | x :: rest => body x;; for_each rest body
  end.

(** ** The script, section by section *)

(** [str(e)], where the model knows it.  The text of a [KeyError] is the
    [repr] of its key, which is not modelled. *)
Definition exn_str (e : exn) : option string :=
  match e with
  | ValueError m | IndexError m | Exception m => Some m
  | KeyError _ | Unmodelled => None
  end.

(** *** 1. Page title *)

Definition page_header : M unit :=
  emit Main (title "💬 Vokasi Assistant (RAG Version)");;
  emit Main (caption "Tanyakan apapun terkait dokumen pengetahuan Anda").

(** *** 2. The API key from Streamlit secrets *)

Definition missing_key_error : string :=
  "Kunci API Google AI tidak ditemukan. Harap atur di file secrets.toml.".

Definition missing_key_info : string :=
  Str.LF +:+
  "        Untuk mengatur kunci API Anda:" +:+ Str.LF +:+ Str.LF +:+
  "        1. Buat file bernama `.streamlit/secrets.toml` di direktori proyek Anda." +:+ Str.LF +:+ Str.LF +:+
  "        2. Tambahkan baris berikut ke dalam file tersebut:" +:+ Str.LF +:+ Str.LF +:+
  "           `GOOGLE_API_KEY = " +:+ Str.DQ +:+ "API_KEY_ANDA" +:+ Str.DQ +:+ "`" +:+ Str.LF +:+ Str.LF +:+
  "        3. Ganti `" +:+ Str.DQ +:+ "API_KEY_ANDA" +:+ Str.DQ +:+ "` dengan kunci API Google AI Anda yang sebenarnya." +:+ Str.LF +:+
  "    ".

(** [st.secrets[key]]: a missing key is a [KeyError]; without a usable
    secrets file every access raises the exception of the failed load. *)
Definition secrets_getitem (st : SecretsState) (key : string) : M string :=
  match st with
  | SecretsLoaded content =>
      match content !! key with
      | Some v => mret v
      | None => raise (KeyError key)
      end
  | SecretsUnavailable msg => raise (Exception msg)
  end.

(** [try: google_api_key = st.secrets["GOOGLE_API_KEY"] except KeyError: ...]. *)
Definition get_api_key_from (st : SecretsState) : M string :=
  try_except (secrets_getitem st "GOOGLE_API_KEY")
    (fun ex =>
       match ex with
       | KeyError _ =>
           emit Main (error missing_key_error (Some "🚨"));;
           emit Main (info missing_key_info);;
           st_stop
       | other => raise other
       end).

Definition get_api_key (e : Env) : M string :=
  get_api_key_from (SecretsLoaded (secrets e)).

(** *** 3. LLM, embeddings and vector store *)

Definition llm_config (google_api_key : string) : ChatGoogleGenerativeAI :=
  {| llm_model := "gemini-1.5-flash";
     llm_api_key := google_api_key;
     temperature := Stdlib.QArith.QArith_base.Qmake 3 10;
     convert_system_message_to_human := true |}.

Definition embeddings_config (google_api_key : string) : GoogleGenerativeAIEmbeddings :=
  {| embedding_model := "models/embedding-001";
     embedding_api_key := google_api_key |}.

Definition chroma_config (embeddings : GoogleGenerativeAIEmbeddings) : Chroma :=
  {| persist_directory := "chroma_db"; embedding_function := embeddings |}.

Definition as_retriever (store : Chroma) (k : nat) : Retriever :=
  {| vectorstore := store; search_k := k |}.

(** The body of [load_components], without the cache. *)
Definition load_components_body (e : Env) (google_api_key : string) : M components :=
  try_except
    (let llm := llm_config google_api_key in
     record_call (NewLLM llm);;
     construct (new_llm (providers e) llm);;
     let embeddings := embeddings_config google_api_key in
     record_call (NewEmbeddings embeddings);;
     construct (new_embeddings (providers e) embeddings);;
     let vector_store := chroma_config embeddings in
     record_call (OpenChroma vector_store);;
     construct (open_chroma (providers e) vector_store);;
     let retriever := as_retriever vector_store 3 in
     mret (Some llm, Some retriever))
    (fun ex =>
       match exn_str ex with
       | Some text =>
           emit Main (error ("Terjadi kesalahan saat inisialisasi: " +:+ text) None);;
           mret (None, None)
       | None => raise Unmodelled
       end).

(** [@st.cache_resource]: the first normal return is stored together with
    the elements the body displayed; later calls replay both. *)
Definition cache_resource (body : M components) : M components :=
  fun s =>
    match resource_cache s with
    | Some (shown, v) => (Normal v, show shown s)
    | None =>
        match body s with
        | (Normal v, s') =>
            (Normal v,
             with_cache (Some (drop (length (display s)) (display s'), v)) s')
        | other => other
        end
    end.

Definition load_components (e : Env) (google_api_key : string) : M components :=
  cache_resource (load_components_body e google_api_key).

(** [llm, retriever = load_components()] and the guard
    [if not llm or not retriever: st.stop()]. *)
Definition get_components (e : Env) (google_api_key : string)
  : M (ChatGoogleGenerativeAI * Retriever) :=
  c ← load_components e google_api_key;
  match c with
  | (Some llm, Some retriever) => mret (llm, retriever)
  | _ => st_stop
  end.

(** *** 4. The RAG chain *)

Definition retriever_invoke (e : Env) (r : Retriever) (query : string) : M (list Document) :=
  record_call (Search (vectorstore r) query (search_k r));;
  lift (similarity_search (providers e) (vectorstore r) query (search_k r)).

Definition llm_invoke (e : Env) (llm : ChatGoogleGenerativeAI) (prompt_text : string) : M string :=
  record_call (Generate llm prompt_text);;
  lift (generate (providers e) llm prompt_text).

(** [rag_chain.invoke(question)]:
    [{"context": retriever | format_docs, "question": RunnablePassthrough()}
     | prompt | llm | StrOutputParser()]. *)
Definition rag_chain_invoke (e : Env) (llm : ChatGoogleGenerativeAI) (r : Retriever)
    (question : string) : M string :=
  docs ← retriever_invoke e r question;
  let context := format_docs docs in
  prompt_text ← lift (prompt_invoke prompt (chain_input context question));
  answer ← llm_invoke e llm prompt_text;
  mret answer.

(** *** 5. Chat history and page *)

Definition sidebar (e : Env) : M unit :=
  emit Sidebar (subheader "Opsi");;
  emit Sidebar (button "Reset Percakapan");;
  if reset_clicked (widgets e)
  then set_messages [];; st_rerun
  else mret tt.

Definition init_history : M unit :=
  fun s =>
    match session_messages s with
    | None => set_messages [] s
    | Some _ => (Normal tt, s)
    end.

Definition show_history : M unit :=
  l ← get_messages;
  for_each l (fun m =>
    emit Main (chat_message (role m));;
    emit (Chat (role m)) (markdown (content m))).

(** The body of [if user_prompt := st.chat_input(...)]. *)
Definition handle_prompt (e : Env) (llm : ChatGoogleGenerativeAI) (r : Retriever)
    (user_prompt : string) : M unit :=
  append_message {| role := "user"; content := user_prompt |};;
  emit Main (chat_message "user");;
  emit (Chat "user") (markdown user_prompt);;
  emit Main (chat_message "assistant");;
  emit (Chat "assistant") (spinner "Mencari jawaban...");;
  response ← rag_chain_invoke e llm r user_prompt;
  emit (Chat "assistant") (markdown response);;
  append_message {| role := "assistant"; content := response |}.

Definition chat (e : Env) (llm : ChatGoogleGenerativeAI) (r : Retriever) : M unit :=
  emit Main (chat_input "Apa yang ingin Anda tanyakan?");;
  match chat_submitted (widgets e) with
  | Some user_prompt =>
      if Str.truthy user_prompt then handle_prompt e llm r user_prompt else mret tt
  | None => mret tt
  end.

(** The whole of [app.py], top to bottom.  The secrets are read through
    [st] only; those of [e] stand for the same file when there is one. *)
Definition script_from (st : SecretsState) (e : Env) : M unit :=
  page_header;;
  google_api_key ← get_api_key_from st;
  '(llm, retriever) ← get_components e google_api_key;
  sidebar e;;
  init_history;;
  show_history;;
  chat e llm retriever.

Definition script (e : Env) : M unit :=
  script_from (SecretsLoaded (secrets e)) e.

(** ** Streamlit's runner *)

Definition clear_display (s : State) : State := with_display [] s.

(** One execution of the script on a cleared page; an exception the script
    does not catch is shown on the page by the runner. *)
Definition execute_from (st : SecretsState) (e : Env) (s : State)
  : outcome unit * State :=
  match script_from st e (clear_display s) with
  | (Raised ex, s') => (Raised ex, (emit Main (exception ex) s').2)
  | other => other
  end.

Definition execute (e : Env) (s : State) : outcome unit * State :=
  execute_from (SecretsLoaded (secrets e)) e s.

Definition no_widgets : Widgets :=
  {| reset_clicked := false; chat_submitted := None |}.

Definition rerun_env (e : Env) : Env :=
  {| secrets := secrets e; providers := providers e; widgets := no_widgets |}.

(** A user interaction triggers one execution; [st.rerun()] makes the runner
    execute the script once more, with no widget triggered. *)
Definition run_from (st : SecretsState) (e : Env) (s : State)
  : outcome unit * State :=
  match execute_from st e s with
  | (RerunRequested, s') => execute_from st (rerun_env e) s'
  | other => other
  end.

Definition run (e : Env) (s : State) : outcome unit * State :=
  run_from (SecretsLoaded (secrets e)) e s.

Definition initial_state : State :=
  {| session_messages := None; resource_cache := None; display := []; calls := [] |}.

(** ** The Vector Index *)

Section VectorIndex.

Context {Score : Type} (score_le : relation Score).
Context `{!∀ x y, Decision (score_le x y)}.

(** Similarity of a stored chunk to a query, in the index's own metric. *)
Variable similarity : string -> Document -> Score.

Definition more_similar (query : string) : relation Document :=
  fun d1 d2 => score_le (similarity query d2) (similarity query d1).

#[local] Instance more_similar_dec query d1 d2 : Decision (more_similar query d1 d2).
Proof. unfold more_similar. apply _. Defined.

(** Modelled from the spec: the Vector Index lookup is the external Chroma
    store, which the script only calls.  Following the spec's "top-K
    retrieval: returning the K stored items whose embeddings are most
    similar to a query embedding", ranked by descending similarity, the
    stored chunks are ordered from most to least similar and the first [k]
    are returned; fewer when the index holds fewer. *)
Definition top_k (index : list Document) (query : string) (k : nat) : list Document :=
  take k (merge_sort (more_similar query) index).

(** Providers whose vector store answers from [index]. *)
Definition with_index (index : list Document) (p : Providers) : Providers :=
  {| new_llm := new_llm p;
     new_embeddings := new_embeddings p;
     open_chroma := open_chroma p;
     similarity_search := fun _ query k => Ok (top_k index query k);
     generate := generate p |}.

End VectorIndex.

(** The retriever the script configures: [k = 3]. *)
Definition K : nat := 3.

Definition script_retriever (google_api_key : string) : Retriever :=
  as_retriever (chroma_config (embeddings_config google_api_key)) K.

(** ** Chat turns *)

Definition user_turn (q : string) : message := {| role := "user"; content := q |}.
Definition assistant_turn (a : string) : message := {| role := "assistant"; content := a |}.

(** Strict alternation of roles, the next expected role being [next]. *)
Fixpoint alternates (next other : string) (l : list message) : bool :=
  match l with
  | [] => true
  | m :: rest => String.eqb (role m) next && alternates other next rest
  end.

Definition alternating (l : list message) : bool := alternates "user" "assistant" l.

(** ** User interactions *)

Definition with_widgets (e : Env) (w : Widgets) : Env :=
  {| secrets := secrets e; providers := providers e; widgets := w |}.

(** The user sends [question] through the chat box. *)
Definition submit (e : Env) (question : string) (s : State) : outcome unit * State :=
  run (with_widgets e {| reset_clicked := false; chat_submitted := Some question |}) s.

(** The user clicks "Reset Percakapan". *)
Definition reset (e : Env) (s : State) : outcome unit * State :=
  run (with_widgets e {| reset_clicked := true; chat_submitted := None |}) s.

(** A sequence of submissions, each against the services as they answer at
    that moment; [None] as soon as one of them does not complete. *)
Fixpoint submit_all (events : list (Env * string)) (s : State) : option State :=
  match events with
  | [] => Some s
  | (e, q) :: rest =>
      match submit e q s with
      | (Normal _, s') => submit_all rest s'
      | _ => None
      end
  end.

(** The script gets past sections 2 and 3 in state [s]: the key is in the
    secrets and the components are cached or can be built. *)
Definition page_ready (e : Env) (s : State) : bool :=
  match secrets e !! "GOOGLE_API_KEY" with
  | None => false
  | Some key =>
      match resource_cache s with
      | Some (_, (Some _, Some _)) => true
      | Some _ => false
      | None =>
          match new_llm (providers e) (llm_config key),
                new_embeddings (providers e) (embeddings_config key),
                open_chroma (providers e) (chroma_config (embeddings_config key)) with
          | Built, Built, Built => true
          | _, _, _ => false
          end
      end
  end.

(** ** Vocabulary of the statements *)

Fixpoint total_length (docs : list Document) : nat :=
  match docs with
  | [] => 0
  | d :: rest => String.length (page_content d) + total_length rest
  end.

(** What [show_history] draws for a transcript. *)
Definition history_view (l : list message) : list (container * element) :=
  flat_map (fun m => [(Main, chat_message (role m));
                      (Chat (role m), markdown (content m))]) l.

(** The calls that query a provider (as opposed to constructing a client). *)
Definition is_query (c : call) : bool :=
  match c with
  | Search _ _ _ | Generate _ _ => true
  | _ => false
  end.

Definition queries (cs : list call) : list call := List.filter is_query cs.

(** The prompt text the chain builds from the retrieved chunks. *)
Definition chain_prompt (docs : list Document) (question : string) : string :=
  instructions +:+ format_docs docs +:+ before_question +:+ question +:+ answer_cue.

(** The script in two halves: what must succeed before the page is usable,
    and the chat page itself. *)
Definition sections_1_3 (e : Env) : M (ChatGoogleGenerativeAI * Retriever) :=
  page_header;;
  google_api_key ← get_api_key e;
  get_components e google_api_key.

Definition section_5 (e : Env) (llm : ChatGoogleGenerativeAI) (r : Retriever) : M unit :=
  sidebar e;;
  init_history;;
  show_history;;
  chat e llm r.

(** What the page shows up to the moment the chain is invoked for
    [question], given the earlier turns [l]. *)
Definition page_until_answer (l : list message) (question : string)
  : list (container * element) :=
  [(Sidebar, subheader "Opsi"); (Sidebar, button "Reset Percakapan")] ++
  history_view l ++
  [(Main, chat_input "Apa yang ingin Anda tanyakan?");
   (Main, chat_message "user");
   (Chat "user", markdown question);
   (Main, chat_message "assistant");
   (Chat "assistant", spinner "Mencari jawaban...")].

(** The transcript made of the given questions and their answers. *)
Fixpoint turns (questions answers : list string) : list message :=
  match questions, answers with
  | q :: qs, a :: rest => user_turn q :: assistant_turn a :: turns qs rest
  | _, _ => []
  end.

(** [a] is what the completion provider returned for the prompt built from
    the chunks retrieved for the question of [ev]. *)
Definition answered_by (ev : Env * string) (a : string) : Prop :=
  exists llm r docs,
    similarity_search (providers ev.1) (vectorstore r) ev.2 (search_k r) = Ok docs
    /\ generate (providers ev.1) llm (chain_prompt docs ev.2) = Ok a.

Definition is_error (ce : container * element) : bool :=
  match ce.2 with
  | error _ _ => true
  | _ => false
  end.

Definition is_chat_input (ce : container * element) : bool :=
  match ce.2 with
  | chat_input _ => true
  | _ => false
  end.

Definition is_assistant (m : message) : bool := String.eqb (role m) "assistant".

(** The page of a run that stops for want of the API key. *)
Definition missing_key_page : list (container * element) :=
  [(Main, title "💬 Vokasi Assistant (RAG Version)");
   (Main, caption "Tanyakan apapun terkait dokumen pengetahuan Anda");
   (Main, error missing_key_error (Some "🚨"));
   (Main, info missing_key_info)].

Definition with_providers (e : Env) (p : Providers) : Env :=
  {| secrets := secrets e; providers := p; widgets := widgets e |}.

(** ** A test double for the providers *)

Module Stub.

Definition chunks : list Document :=
  [ {| page_content := "Pendaftaran dibuka bulan Mei." |};
    {| page_content := "Vokasi" |};
    {| page_content := "Biaya kuliah per semester." |};
    {| page_content := "Vokasi" |} ].

(** Longer chunks count as more similar, whatever the query. *)
Definition by_length (query : string) (d : Document) : Z :=
  Z.of_nat (String.length (page_content d)).

Definition answering : Providers :=
  {| new_llm := fun _ => Built;
     new_embeddings := fun _ => Built;
     open_chroma := fun _ => Built;
     similarity_search := fun _ _ k => Ok (take k chunks);
     generate := fun _ _ => Ok "Pendaftaran dibuka bulan Mei." |}.

Definition out_of_quota : Providers :=
  {| new_llm := fun _ => Built;
     new_embeddings := fun _ => Built;
     open_chroma := fun _ => Built;
     similarity_search := fun _ _ k => Ok (take k chunks);
     generate := fun _ _ => Err (Exception "429 quota exceeded") |}.

Definition env (p : Providers) : Env :=
  {| secrets := {["GOOGLE_API_KEY" := "AIza-test"]};
     providers := p;
     widgets := no_widgets |}.

Definition env_without_key : Env :=
  {| secrets := ∅;
     providers := answering;
     widgets := {| reset_clicked := false; chat_submitted := Some "Kapan pendaftaran?" |} |}.

Definition two_questions : list (Env * string) :=
  [(env answering, "Kapan pendaftaran?"); (env answering, "Berapa biayanya?")].

Definition after_two_questions : State :=
  default initial_state (submit_all two_questions initial_state).

End Stub.

(** ** Vocabulary for whole runs *)

Definition header : list (container * element) :=
  [(Main, title "💬 Vokasi Assistant (RAG Version)");
   (Main, caption "Tanyakan apapun terkait dokumen pengetahuan Anda")].

Definition sidebar_view : list (container * element) :=
  [(Sidebar, subheader "Opsi"); (Sidebar, button "Reset Percakapan")].

(** The alert [load_components] shows when a constructor raises an
    exception whose text is [text]. *)
Definition init_error (text : string) : container * element :=
  (Main, error ("Terjadi kesalahan saat inisialisasi: " +:+ text) None).

Definition construction_calls (key : string) : list call :=
  [NewLLM (llm_config key);
   NewEmbeddings (embeddings_config key);
   OpenChroma (chroma_config (embeddings_config key))].

(** The constructors [load_components] reaches, in order, and the text of
    the exception that stopped it, if any. *)
Definition init_attempt (p : Providers) (key : string) : list call * option string :=
  match new_llm p (llm_config key) with
  | Refused text => (take 1 (construction_calls key), Some text)
  | Built =>
      match new_embeddings p (embeddings_config key) with
      | Refused text => (take 2 (construction_calls key), Some text)
      | Built =>
          match open_chroma p (chroma_config (embeddings_config key)) with
          | Refused text => (construction_calls key, Some text)
          | Built => (construction_calls key, None)
          end
      end
  end.

(** The calls that construct a client. *)
Definition constructions (cs : list call) : list call :=
  List.filter (fun c => negb (is_query c)) cs.

(** No widget asks for anything in this run: the reset button is not
    clicked and the chat box delivers nothing, or an empty string. *)
Definition idle (w : Widgets) : bool :=
  negb (reset_clicked w) &&
  match chat_submitted w with
  | Some q => negb (Str.truthy q)
  | None => true
  end.

(** A session: the script is run once per entry, each time with the
    secrets, services and widget values of that moment. *)
Definition interact (events : list Env) (s : State) : State :=
  fold_left (fun s e => (run e s).2) events s.

(** Calls as section 3 and the chain shape them. *)
Definition call_ok (c : call) : Prop :=
  match c with
  | NewLLM cfg => exists key, cfg = llm_config key
  | NewEmbeddings cfg => exists key, cfg = embeddings_config key
  | OpenChroma cfg => exists key, cfg = chroma_config (embeddings_config key)
  | Search store _ k =>
      k = 3 /\ persist_directory store = "chroma_db"
  | Generate llm p =>
      llm_model llm = "gemini-1.5-flash"
      /\ exists docs q, p = chain_prompt docs q
  end.

(** A cache entry as [load_components] writes it. *)
Definition cache_ok (s : State) : Prop :=
  match resource_cache s with
  | Some (_, (Some llm, Some r)) =>
      exists key, llm = llm_config key /\ r = script_retriever key
  | _ => True
  end.

(** Every assistant turn directly follows a user turn; [after_user] tells
    whether the turn before the list was a user turn. *)
Fixpoint paired (after_user : bool) (l : list message) : bool :=
  match l with
  | [] => true
  | m :: rest =>
      if String.eqb (role m) "user" then paired true rest
      else String.eqb (role m) "assistant" && after_user && paired false rest
  end.

Module Scenario.

(** The persisted store cannot be opened. *)
Definition no_store : Providers :=
  {| new_llm := fun _ => Built;
     new_embeddings := fun _ => Built;
     open_chroma := fun _ => Refused "chroma_db: no such directory";
     similarity_search := fun _ _ k => Ok (take k Stub.chunks);
     generate := fun _ _ => Ok "Pendaftaran dibuka bulan Mei." |}.

Definition asking (p : Providers) (q : string) : Env :=
  {| secrets := {["GOOGLE_API_KEY" := "AIza-test"]};
     providers := p;
     widgets := {| reset_clicked := false; chat_submitted := Some q |} |}.

Definition rotated_key : Env :=
  {| secrets := {["GOOGLE_API_KEY" := "AIza-rotated"]};
     providers := Stub.answering;
     widgets := no_widgets |}.

Definition resetting : Env :=
  {| secrets := {["GOOGLE_API_KEY" := "AIza-test"]};
     providers := Stub.answering;
     widgets := {| reset_clicked := true; chat_submitted := Some "Kapan pendaftaran?" |} |}.

End Scenario.

(** ** Runs with or without a secrets file *)

Definition with_secrets (e : Env) (content : gmap string string) : Env :=
  {| secrets := content; providers := providers e; widgets := widgets e |}.

(** The user sends [question] through the chat box, whatever [st.secrets]
    has to offer. *)
Definition submit_from (st : SecretsState) (e : Env) (question : string) (s : State)
  : outcome unit * State :=
  run_from st (with_widgets e {| reset_clicked := false; chat_submitted := Some question |}) s.

(** The script gets past sections 2 and 3: never without a usable secrets
    file. *)
Definition ready_from (st : SecretsState) (e : Env) (s : State) : bool :=
  match st with
  | SecretsLoaded content => page_ready (with_secrets e content) s
  | SecretsUnavailable _ => false
  end.


(** * Properties *)

(** ** Strings *)

Lemma Ok_inj {A : Type} (a b : A) : Ok a = Ok b -> a = b.
Proof. congruence. Qed.

Lemma str_app_nil_r (s : string) : s +:+ "" = s.
Proof. induction s as [|c s IH]; simpl; [reflexivity | now rewrite IH]. Qed.

Lemma str_app_assoc (a b c : string) : (a +:+ b) +:+ c = a +:+ b +:+ c.
Proof. induction a as [|x a IH]; simpl; [reflexivity | now rewrite IH]. Qed.

Lemma str_app_length (a b : string) :
  String.length (a +:+ b) = String.length a + String.length b.
Proof. induction a as [|x a IH]; simpl; [reflexivity | now rewrite IH]. Qed.

Lemma occurs_in_refl (s : string) : Str.occurs_in s s.
Proof. exists "", "". simpl. now rewrite str_app_nil_r. Qed.

Lemma occurs_in_app_l (n a b : string) : Str.occurs_in n a -> Str.occurs_in n (a +:+ b).
Proof.
  intros (p & q & ->). exists p, (q +:+ b).
  now rewrite !str_app_assoc.
Qed.

Lemma occurs_in_app_r (n a b : string) : Str.occurs_in n b -> Str.occurs_in n (a +:+ b).
Proof.
  intros (p & q & ->). exists (a +:+ p), q.
  now rewrite !str_app_assoc.
Qed.

Lemma occurs_in_trans (a b c : string) :
  Str.occurs_in a b -> Str.occurs_in b c -> Str.occurs_in a c.
Proof.
  intros (p & q & ->) (p' & q' & ->).
  exists (p' +:+ p), (q +:+ q'). now rewrite !str_app_assoc.
Qed.

Lemma join_cons2 sep x y rest :
  Str.join sep (x :: y :: rest) = x +:+ sep +:+ Str.join sep (y :: rest).
Proof. reflexivity. Qed.

Lemma join_elem sep (parts : list string) x :
  x ∈ parts -> Str.occurs_in x (Str.join sep parts).
Proof.
  induction parts as [|y [|z rest] IH]; intros Hin.
  - inversion Hin.
  - apply list_elem_of_singleton in Hin as ->. apply occurs_in_refl.
  - rewrite join_cons2. apply elem_of_cons in Hin as [->|Hin].
    + apply occurs_in_app_l, occurs_in_refl.
    + do 2 apply occurs_in_app_r. now apply IH.
Qed.

(** ** The template *)

Example prompt_template_length : String.length prompt_template = 365.
Proof. reflexivity. Qed.

Example prompt_template_pieces :
  Template.parse prompt_template =
  [Template.Lit instructions; Template.Field "context";
   Template.Lit before_question; Template.Field "question";
   Template.Lit answer_cue].
Proof. vm_compute. reflexivity. Qed.


Example format_escaped_braces :
  Template.format "a{{b}}{x}c" {["x" := "{y}"]} = Ok "a{b}{y}c".
Proof. vm_compute. reflexivity. Qed.

Example format_missing_key :
  Template.format "{x} and {y}" {["x" := "1"]} = Err (KeyError "y").
Proof. vm_compute. reflexivity. Qed.

Example format_single_brace :
  Template.format "a}b" ∅ = Err (ValueError "Single '}' encountered in format string").
Proof. vm_compute. reflexivity. Qed.

Example format_key_error_comes_first :
  Template.format "{x} }" ∅ = Err (KeyError "x").
Proof. vm_compute. reflexivity. Qed.

(** ** The prompt composer *)

Lemma chain_input_context (context question : string) :
  chain_input context question !! "context" = Some context.
Proof. unfold chain_input. apply lookup_insert_eq. Qed.

Lemma chain_input_question (context question : string) :
  chain_input context question !! "question" = Some question.
Proof.
  unfold chain_input. rewrite lookup_insert_ne by discriminate.
  apply lookup_insert_eq.
Qed.

(** The prompt is the template's three literal blocks around the two values;
    in particular the composer never fails. *)
Lemma compose_eq (context question : string) :
  compose context question =
  Ok (instructions +:+ context +:+ before_question +:+ question +:+ answer_cue).
Proof.
  unfold compose, prompt_invoke. cbn [input_variables template prompt].
  assert (Hf : filter (fun v => chain_input context question !! v = None)
                 ["context"; "question"] = []).
  { rewrite filter_cons_False by (rewrite chain_input_context; discriminate).
    rewrite filter_cons_False by (rewrite chain_input_question; discriminate).
    reflexivity. }
  rewrite Hf. unfold Template.format. rewrite prompt_template_pieces.
  cbn [Template.render].
  replace (Template.all_digits "context") with false by reflexivity.
  replace (Template.all_digits "question") with false by reflexivity.
  rewrite chain_input_context, chain_input_question.
  cbn [result_map]. reflexivity.
Qed.

Lemma prompt_format_total (context question : string) :
  exists p, prompt_invoke prompt (chain_input context question) = Ok p.
Proof. eexists. apply compose_eq. Qed.

Lemma compose_has_context (context question p : string) :
  compose context question = Ok p -> Str.occurs_in context p.
Proof.
  rewrite compose_eq. intros H. apply Ok_inj in H. subst p.
  apply occurs_in_app_r, occurs_in_app_l, occurs_in_refl.
Qed.

Lemma compose_has_question (context question p : string) :
  compose context question = Ok p -> Str.occurs_in question p.
Proof.
  rewrite compose_eq. intros H. apply Ok_inj in H. subst p.
  do 3 apply occurs_in_app_r. apply occurs_in_app_l, occurs_in_refl.
Qed.

(** ** The context joiner *)

Lemma format_docs_nil : format_docs [] = EmptyString.
Proof. reflexivity. Qed.

Lemma format_docs_one (d : Document) : format_docs [d] = page_content d.
Proof. reflexivity. Qed.

Lemma format_docs_cons2 (d d' : Document) (rest : list Document) :
  format_docs (d :: d' :: rest) =
  page_content d +:+ separator +:+ format_docs (d' :: rest).
Proof. reflexivity. Qed.

Lemma format_docs_app (d1 d2 : Document) (l1 l2 : list Document) :
  format_docs ((d1 :: l1) ++ d2 :: l2) =
  format_docs (d1 :: l1) +:+ separator +:+ format_docs (d2 :: l2).
Proof.
  revert d1. induction l1 as [|x l1 IH]; intros d1.
  - reflexivity.
  - specialize (IH x). cbn [app] in IH |- *.
    rewrite !format_docs_cons2.
    rewrite IH, !str_app_assoc. reflexivity.
Qed.

Lemma format_docs_elem (d : Document) (docs : list Document) :
  d ∈ docs -> Str.occurs_in (page_content d) (format_docs docs).
Proof.
  intros Hin. apply join_elem.
  change (map page_content docs) with (page_content <$> docs).
  now apply list_elem_of_fmap_2.
Qed.

(** The joiner agrees with the standard library's [String.concat]. *)
Lemma format_docs_concat (docs : list Document) :
  format_docs docs = String.concat separator (map page_content docs).
Proof.
  unfold format_docs. fold separator.
  induction (map page_content docs) as [|x [|y l] IH]; reflexivity.
Qed.

Lemma format_docs_length (docs : list Document) :
  String.length (format_docs docs) = total_length docs + 2 * (length docs - 1).
Proof.
  induction docs as [|d [|d' rest] IH].
  - reflexivity.
  - rewrite format_docs_one. simpl. lia.
  - rewrite format_docs_cons2, !str_app_length, IH.
    change (String.length separator) with 2. simpl. lia.
Qed.

(** C2: the joiner concatenates the chunks' texts in input order with
    exactly two newline characters between consecutive chunks and nothing
    before the first or after the last; for two chunks [A] and [B] the
    result is [A]'s text, then the two newlines, then [B]'s text. *)
Theorem format_docs_blank_line_join :
  separator = String (ascii_of_nat 10) (String (ascii_of_nat 10) EmptyString)
  /\ (forall A B : Document,
        format_docs [A; B] = page_content A +:+ separator +:+ page_content B)
  /\ format_docs [] = EmptyString
  /\ (forall d : Document, format_docs [d] = page_content d)
  /\ (forall (d d' : Document) (rest : list Document),
        format_docs (d :: d' :: rest) =
        page_content d +:+ separator +:+ format_docs (d' :: rest))
  /\ (forall (d1 d2 : Document) (l1 l2 : list Document),
        format_docs ((d1 :: l1) ++ d2 :: l2) =
        format_docs (d1 :: l1) +:+ separator +:+ format_docs (d2 :: l2))
  /\ (forall docs : list Document,
        String.length (format_docs docs) =
        total_length docs + 2 * (length docs - 1)).
Proof.
  split; [reflexivity|].
  split; [intros; apply format_docs_cons2|].
  split; [apply format_docs_nil|].
  split; [apply format_docs_one|].
  split; [apply format_docs_cons2|].
  split; [apply format_docs_app | apply format_docs_length].
Qed.

(** ** The instructions carried by every prompt *)

Lemma instructions_context_only : Str.occurs_in context_only_rule instructions.
Proof.
  unfold instructions.
  apply occurs_in_app_r. rewrite <- str_app_assoc.
  apply occurs_in_app_l, occurs_in_app_r, occurs_in_refl.
Qed.

Lemma instructions_refusal : Str.occurs_in refusal_rule instructions.
Proof.
  unfold instructions.
  do 4 apply occurs_in_app_r. apply occurs_in_app_l, occurs_in_refl.
Qed.

Lemma instructions_no_fabrication : Str.occurs_in no_fabrication_rule instructions.
Proof.
  unfold instructions.
  do 6 apply occurs_in_app_r. apply occurs_in_app_l, occurs_in_refl.
Qed.

Lemma refusal_rule_quotes_phrase : Str.occurs_in refusal_phrase refusal_rule.
Proof.
  unfold refusal_rule.
  do 2 apply occurs_in_app_r. apply occurs_in_app_l, occurs_in_refl.
Qed.

(** C5: the composer renders one fixed template whose only replacement
    fields are the context and the question, in that order; every prompt
    opens with the same instruction block, which tells the model to answer
    only from the given context, to say the fixed refusal sentence when the
    context lacks the information, and not to make up an answer. *)
Theorem compose_fixed_template (context question : string) :
  Template.parse (template prompt) =
    [Template.Lit instructions; Template.Field "context";
     Template.Lit before_question; Template.Field "question";
     Template.Lit answer_cue]
  /\ Template.fields (Template.parse (template prompt)) = ["context"; "question"]
  /\ compose context question =
       Ok (instructions +:+ context +:+ before_question +:+ question +:+ answer_cue)
  /\ Str.occurs_in context_only_rule instructions
  /\ Str.occurs_in refusal_rule instructions
  /\ Str.occurs_in refusal_phrase refusal_rule
  /\ Str.occurs_in no_fabrication_rule instructions.
Proof.
  split; [apply prompt_template_pieces|].
  split; [change (template prompt) with prompt_template;
          rewrite prompt_template_pieces; reflexivity|].
  split; [apply compose_eq|].
  auto using instructions_context_only, instructions_refusal,
    refusal_rule_quotes_phrase, instructions_no_fabrication.
Qed.

(** ** The chain *)

(** Unfolds the monad's operations, and nothing else. *)
Ltac step_monad :=
  cbv beta iota zeta
    delta [mret M_ret mbind M_bind lift construct exn_str raise record_call
           emit set_messages st_stop st_rerun try_except].

Lemma bind_eq {A B : Type} (m : M A) (k : A -> M B) (s : State) :
  (m ≫= k) s =
  match m s with
  | (Normal a, s') => k a s'
  | (Raised e, s') => (Raised e, s')
  | (Stopped, s') => (Stopped, s')
  | (RerunRequested, s') => (RerunRequested, s')
  end.
Proof. reflexivity. Qed.

Lemma bind_assoc {A B C : Type} (m : M A) (k : A -> M B) (h : B -> M C) (s : State) :
  ((m ≫= k) ≫= h) s = (m ≫= (fun a => k a ≫= h)) s.
Proof. rewrite !bind_eq. destruct (m s) as [[a| | |] s']; reflexivity. Qed.

(** The chain queries the index once, then the model once, and gives back
    the model's text as it is. *)
Lemma rag_chain_invoke_eq (e : Env) (llm : ChatGoogleGenerativeAI) (r : Retriever)
    (question : string) (s : State) :
  rag_chain_invoke e llm r question s =
  let s1 := log [Search (vectorstore r) question (search_k r)] s in
  match similarity_search (providers e) (vectorstore r) question (search_k r) with
  | Err ex => (Raised ex, s1)
  | Ok docs =>
      let s2 := log [Generate llm (chain_prompt docs question)] s1 in
      match generate (providers e) llm (chain_prompt docs question) with
      | Err ex => (Raised ex, s2)
      | Ok answer => (Normal answer, s2)
      end
  end.
Proof.
  unfold rag_chain_invoke, retriever_invoke, llm_invoke.
  step_monad.
  destruct (similarity_search _ _ _ _) as [docs|ex]; step_monad; [|reflexivity].
  change (prompt_invoke prompt (chain_input ?c ?q)) with (compose c q).
  rewrite compose_eq. fold (chain_prompt docs question). step_monad.
  destruct (generate _ _ _) as [answer|ex]; reflexivity.
Qed.

(** C1: whenever the index answers a question with some chunks, the one
    prompt the chain sends to the completion provider contains the
    question verbatim and the text of every one of those chunks verbatim. *)
Theorem prompt_contains_question_and_chunks
    (e : Env) (llm : ChatGoogleGenerativeAI) (r : Retriever)
    (question : string) (docs : list Document) (s : State) :
  similarity_search (providers e) (vectorstore r) question (search_k r) = Ok docs ->
  exists p,
    compose (format_docs docs) question = Ok p
    /\ calls (rag_chain_invoke e llm r question s).2 =
         calls s ++ [Search (vectorstore r) question (search_k r); Generate llm p]
    /\ Str.occurs_in question p
    /\ forall d, d ∈ docs -> Str.occurs_in (page_content d) p.
Proof.
  intros Hsearch. exists (chain_prompt docs question).
  assert (Hc : compose (format_docs docs) question = Ok (chain_prompt docs question))
    by apply compose_eq.
  split; [exact Hc|]. split; [|split].
  - rewrite rag_chain_invoke_eq, Hsearch. cbv zeta.
    destruct (generate _ _ _); cbn [snd log with_calls calls];
      rewrite <- app_assoc; reflexivity.
  - exact (compose_has_question _ _ _ Hc).
  - intros d Hd. eapply occurs_in_trans.
    + apply format_docs_elem, Hd.
    + exact (compose_has_context _ _ _ Hc).
Qed.

(** ** The script *)

Lemma State_eta (s : State) :
  {| session_messages := session_messages s;
     resource_cache := resource_cache s;
     display := display s;
     calls := calls s |} = s.
Proof. destruct s; reflexivity. Qed.

Lemma State_eq (s t : State) :
  session_messages s = session_messages t ->
  resource_cache s = resource_cache t ->
  display s = display t ->
  calls s = calls t ->
  s = t.
Proof. destruct s, t; cbn; congruence. Qed.

(** Brings both sides of an equation between states to their fields. *)
Ltac state_eq :=
  apply State_eq;
  cbn [session_messages resource_cache display calls
       show log with_messages with_cache with_display with_calls clear_display];
  rewrite <- ?app_assoc, ?app_nil_r; try reflexivity.

Lemma script_eq (e : Env) (s : State) :
  script e s =
  (page_header;;
   google_api_key ← get_api_key e;
   '(llm, retriever) ← get_components e google_api_key;
   sidebar e;;
   init_history;;
   show_history;;
   chat e llm retriever) s.
Proof. reflexivity. Qed.

Lemma execute_script (e : Env) (s : State) :
  execute e s =
  match script e (clear_display s) with
  | (Raised ex, s') => (Raised ex, (emit Main (exception ex) s').2)
  | other => other
  end.
Proof. reflexivity. Qed.

Lemma run_eq (e : Env) (s : State) :
  run e s =
  match execute e s with
  | (RerunRequested, s') => execute (rerun_env e) s'
  | other => other
  end.
Proof. reflexivity. Qed.

Lemma script_split (e : Env) (s : State) :
  script e s =
  (sections_1_3 e ≫= (fun c => section_5 e c.1 c.2)) s.
Proof.
  rewrite script_eq. unfold sections_1_3. rewrite !bind_eq.
  destruct (page_header s) as [[[]| | |] s1]; try reflexivity.
  rewrite !bind_eq.
  destruct (get_api_key e s1) as [[key| | |] s2]; try reflexivity.
  rewrite !bind_eq.
  destruct (get_components e key s2) as [[[llm r]| | |] s3]; reflexivity.
Qed.

Lemma for_each_history (l : list message) (s : State) :
  for_each l (fun m =>
    emit Main (chat_message (role m));;
    emit (Chat (role m)) (markdown (content m))) s =
  (Normal tt, show (history_view l) s).
Proof.
  revert s. induction l as [|m l IH]; intros s.
  - cbn [for_each history_view flat_map]. step_monad. f_equal. state_eq.
  - cbn [for_each]. rewrite bind_eq. step_monad. rewrite IH. f_equal.
    cbn [history_view flat_map]. state_eq.
Qed.

Lemma show_history_eq (l : list message) (s : State) :
  session_messages s = Some l ->
  show_history s = (Normal tt, show (history_view l) s).
Proof.
  intros H. unfold show_history. rewrite bind_eq.
  unfold get_messages. rewrite H. apply for_each_history.
Qed.

Ltac eval_state :=
  cbn [fst snd session_messages resource_cache display calls
       show log with_messages with_cache with_display with_calls clear_display].

Lemma queries_app (a b : list call) : queries (a ++ b) = (queries a ++ queries b)%list.
Proof. apply List.filter_app. Qed.

Lemma sections_1_3_spec (e : Env) (s : State) :
  session_messages (sections_1_3 e s).2 = session_messages s
  /\ queries (calls (sections_1_3 e s).2) = queries (calls s)
  /\ match (sections_1_3 e s).1 with
     | Normal (llm, r) =>
         page_ready e s = true
         /\ exists shown, resource_cache (sections_1_3 e s).2 = Some (shown, (Some llm, Some r))
     | Stopped => page_ready e s = false
     | _ => False
     end.
Proof.
  unfold sections_1_3, page_header, get_api_key, get_api_key_from, secrets_getitem, get_components,
    load_components, cache_resource, load_components_body, page_ready.
  step_monad. eval_state.
  destruct (secrets e !! "GOOGLE_API_KEY") as [key|]; step_monad; eval_state.
  2:{ auto. }
  destruct (resource_cache s) as [[shown [[llm|] [r|]]]|] eqn:Hc; step_monad; eval_state; eauto.
  destruct (new_llm _ _) as [|ex]; step_monad; eval_state.
  2:{ rewrite queries_app, app_nil_r. auto. }
  destruct (new_embeddings _ _) as [|ex]; step_monad; eval_state.
  2:{ rewrite !queries_app, !app_nil_r. auto. }
  destruct (open_chroma _ _) as [|ex]; step_monad; eval_state.
  2:{ rewrite !queries_app, !app_nil_r. auto. }
  rewrite !queries_app, !app_nil_r. eauto.
Qed.

Lemma init_history_eq (s : State) :
  init_history s = (Normal tt, with_messages (Some (transcript s)) s).
Proof.
  unfold init_history, transcript.
  destruct (session_messages s) as [l|] eqn:H; cbn [default]; step_monad; f_equal.
  apply State_eq; eval_state; auto.
Qed.

Lemma section_5_submit (e : Env) (llm : ChatGoogleGenerativeAI) (r : Retriever)
    (q : string) (s : State) :
  reset_clicked (widgets e) = false ->
  chat_submitted (widgets e) = Some q ->
  Str.truthy q = true ->
  section_5 e llm r s =
  let l := transcript s in
  let s1 := log [Search (vectorstore r) q (search_k r)]
              (show (page_until_answer l q)
                 (with_messages (Some (l ++ [user_turn q])) s)) in
  match similarity_search (providers e) (vectorstore r) q (search_k r) with
  | Err ex => (Raised ex, s1)
  | Ok docs =>
      let s2 := log [Generate llm (chain_prompt docs q)] s1 in
      match generate (providers e) llm (chain_prompt docs q) with
      | Err ex => (Raised ex, s2)
      | Ok a =>
          (Normal tt,
           with_messages (Some (l ++ [user_turn q; assistant_turn a]))
             (show [(Chat "assistant", markdown a)] s2))
      end
  end.
Proof.
  intros Hreset Hchat Htruthy.
  unfold section_5, sidebar. rewrite Hreset.
  rewrite !bind_eq. step_monad. rewrite init_history_eq.
  rewrite (show_history_eq (transcript s)) by reflexivity.
  unfold chat. rewrite Hchat, Htruthy. rewrite bind_eq. step_monad.
  unfold handle_prompt, append_message, get_messages.
  rewrite !bind_eq. step_monad. eval_state. step_monad.
  rewrite rag_chain_invoke_eq. cbv zeta.
  destruct (similarity_search _ _ _ _) as [docs|ex].
  2:{ f_equal. unfold page_until_answer. state_eq. }
  destruct (generate _ _ _) as [a|ex].
  2:{ f_equal. unfold page_until_answer. state_eq. }
  step_monad. eval_state. f_equal. unfold page_until_answer. state_eq.
Qed.

Lemma section_5_reset (e : Env) (llm : ChatGoogleGenerativeAI) (r : Retriever) (s : State) :
  reset_clicked (widgets e) = true ->
  section_5 e llm r s =
  (RerunRequested,
   with_messages (Some [])
     (show [(Sidebar, subheader "Opsi"); (Sidebar, button "Reset Percakapan")] s)).
Proof.
  intros Hreset. unfold section_5, sidebar. rewrite Hreset.
  rewrite !bind_eq. step_monad. f_equal. state_eq.
Qed.

Lemma section_5_idle (e : Env) (llm : ChatGoogleGenerativeAI) (r : Retriever) (s : State) :
  reset_clicked (widgets e) = false ->
  chat_submitted (widgets e) = None ->
  section_5 e llm r s =
  (Normal tt,
   show ([(Sidebar, subheader "Opsi"); (Sidebar, button "Reset Percakapan")] ++
         history_view (transcript s) ++
         [(Main, chat_input "Apa yang ingin Anda tanyakan?")])
     (with_messages (Some (transcript s)) s)).
Proof.
  intros Hreset Hchat. unfold section_5, sidebar. rewrite Hreset.
  rewrite !bind_eq. step_monad. rewrite init_history_eq.
  rewrite (show_history_eq (transcript s)) by reflexivity.
  unfold chat. rewrite Hchat. rewrite bind_eq. step_monad.
  f_equal. state_eq.
Qed.

(** Sections 1 and 2 when the key is missing. *)
Lemma script_without_key (e : Env) (s : State) :
  secrets e !! "GOOGLE_API_KEY" = None ->
  script e s =
  (Stopped,
   show [(Main, title "💬 Vokasi Assistant (RAG Version)");
         (Main, caption "Tanyakan apapun terkait dokumen pengetahuan Anda");
         (Main, error missing_key_error (Some "🚨"));
         (Main, info missing_key_info)] s).
Proof.
  intros Hkey. rewrite script_eq.
  unfold page_header, get_api_key, get_api_key_from, secrets_getitem.
  rewrite !bind_eq. step_monad. rewrite Hkey. step_monad.
  f_equal. state_eq.
Qed.

Lemma page_ready_key (e : Env) (s : State) :
  page_ready e s = true -> exists key, secrets e !! "GOOGLE_API_KEY" = Some key.
Proof.
  unfold page_ready. destruct (secrets e !! "GOOGLE_API_KEY"); [eauto | discriminate].
Qed.

Lemma page_ready_cached (e : Env) (s : State) key shown llm r :
  secrets e !! "GOOGLE_API_KEY" = Some key ->
  resource_cache s = Some (shown, (Some llm, Some r)) ->
  page_ready e s = true.
Proof. intros Hk Hc. unfold page_ready. now rewrite Hk, Hc. Qed.

(** Widgets and the page play no part in readiness. *)
Lemma page_ready_irrelevant (e e' : Env) (s s' : State) :
  secrets e' = secrets e ->
  providers e' = providers e ->
  resource_cache s' = resource_cache s ->
  page_ready e' s' = page_ready e s.
Proof. intros Hs Hp Hc. unfold page_ready. now rewrite Hs, Hp, Hc. Qed.

Lemma execute_eq (e : Env) (s : State) :
  execute e s =
  match sections_1_3 e (clear_display s) with
  | (Normal c, s1) =>
      match section_5 e c.1 c.2 s1 with
      | (Raised ex, s2) => (Raised ex, show [(Main, exception ex)] s2)
      | other => other
      end
  | (Raised ex, s1) => (Raised ex, show [(Main, exception ex)] s1)
  | (Stopped, s1) => (Stopped, s1)
  | (RerunRequested, s1) => (RerunRequested, s1)
  end.
Proof.
  rewrite execute_script, script_split, bind_eq.
  destruct (sections_1_3 e (clear_display s)) as [[c| | |] s1]; reflexivity.
Qed.

Lemma submit_spec (e : Env) (q : string) (s : State) (o : outcome unit) (s' : State) :
  Str.truthy q = true ->
  submit e q s = (o, s') ->
  match o with
  | Normal _ =>
      exists llm r docs a,
        similarity_search (providers e) (vectorstore r) q (search_k r) = Ok docs
        /\ generate (providers e) llm (chain_prompt docs q) = Ok a
        /\ session_messages s' = Some (transcript s ++ [user_turn q; assistant_turn a])
        /\ queries (calls s') =
             queries (calls s) ++
             [Search (vectorstore r) q (search_k r); Generate llm (chain_prompt docs q)]
        /\ exists before,
             display s' =
             before ++ page_until_answer (transcript s) q ++
             [(Chat "assistant", markdown a)]
  | Raised ex =>
      exists llm r,
        session_messages s' = Some (transcript s ++ [user_turn q])
        /\ (exists before,
              display s' =
              before ++ page_until_answer (transcript s) q ++ [(Main, exception ex)])
        /\ ((similarity_search (providers e) (vectorstore r) q (search_k r) = Err ex
             /\ queries (calls s') =
                  queries (calls s) ++ [Search (vectorstore r) q (search_k r)])
            \/ (exists docs,
                  similarity_search (providers e) (vectorstore r) q (search_k r) = Ok docs
                  /\ generate (providers e) llm (chain_prompt docs q) = Err ex
                  /\ queries (calls s') =
                       queries (calls s) ++
                       [Search (vectorstore r) q (search_k r);
                        Generate llm (chain_prompt docs q)]))
  | Stopped =>
      page_ready e s = false
      /\ session_messages s' = session_messages s
      /\ queries (calls s') = queries (calls s)
  | RerunRequested => False
  end.
Proof.
  intros Hq. unfold submit. rewrite run_eq, execute_eq.
  set (e' := with_widgets e _).
  pose proof (sections_1_3_spec e' (clear_display s)) as (Hm & Hc & Ho).
  destruct (sections_1_3 e' (clear_display s)) as [[[llm r]| | |] s1];
    cbn [fst snd] in Hm, Hc, Ho; try contradiction.
  - destruct Ho as [Hready _]. cbn [fst snd].
    rewrite (section_5_submit e' llm r q s1) by (reflexivity || assumption).
    assert (Ht : transcript s1 = transcript s).
    { unfold transcript. now rewrite Hm. }
    rewrite Ht. cbv zeta. change (providers e') with (providers e).
    destruct (similarity_search _ _ _ _) as [docs|ex] eqn:Hs.
    + destruct (generate _ _ _) as [a|ex] eqn:Hg; intros [= <- <-].
      * exists llm, r, docs, a.
        split; [assumption|]. split; [assumption|]. split; [reflexivity|]. split.
        -- eval_state. rewrite !queries_app, Hc. cbn. now rewrite <- app_assoc.
        -- exists (display s1). eval_state. now rewrite <- app_assoc.
      * exists llm, r. split; [reflexivity|]. split.
        -- exists (display s1). eval_state. now rewrite <- app_assoc.
        -- right. exists docs.
           split; [assumption|]. split; [assumption|].
           eval_state. rewrite !queries_app, Hc. cbn. now rewrite <- app_assoc.
    + intros [= <- <-]. exists llm, r. split; [reflexivity|]. split.
      * exists (display s1). eval_state. now rewrite <- app_assoc.
      * left. split; [assumption|].
        eval_state. rewrite !queries_app, Hc. reflexivity.
  - intros [= <- <-]. repeat split; assumption.
Qed.

(** ** Transcripts *)

Lemma turns_length (qs ans : list string) :
  length qs = length ans -> length (turns qs ans) = 2 * length qs.
Proof.
  revert ans. induction qs as [|q qs IH]; intros [|a ans] Hlen;
    cbn in *; try lia.
  rewrite IH by lia. lia.
Qed.

Lemma turns_alternating (qs ans : list string) : alternating (turns qs ans) = true.
Proof.
  unfold alternating. revert ans.
  induction qs as [|q qs IH]; intros [|a ans]; try reflexivity.
  cbn [turns alternates user_turn assistant_turn role].
  rewrite IH. reflexivity.
Qed.

Lemma turns_snoc (qs ans : list string) (q a : string) :
  length qs = length ans ->
  turns qs ans ++ [user_turn q; assistant_turn a] = turns (qs ++ [q]) (ans ++ [a]).
Proof.
  revert ans. induction qs as [|x qs IH]; intros [|y ans] Hlen;
    cbn in *; try lia; [reflexivity|].
  rewrite IH by lia. reflexivity.
Qed.

Lemma transcript_of_messages (s : State) (l : list message) :
  session_messages s = Some l -> transcript s = l.
Proof. intros H. unfold transcript. now rewrite H. Qed.

(** Completed submissions append one question/answer pair each. *)
Lemma submit_all_transcript (events : list (Env * string)) (s0 s : State) :
  Forall (fun ev => Str.truthy ev.2 = true) events ->
  submit_all events s0 = Some s ->
  exists answers,
    Forall2 answered_by events answers
    /\ transcript s = transcript s0 ++ turns (events.*2) answers.
Proof.
  revert s0. induction events as [|[e q] events IH]; intros s0 Hq Hall.
  - injection Hall as <-. exists []. split; [constructor|].
    cbn. now rewrite app_nil_r.
  - apply Forall_cons in Hq as [Hq Hqs]. cbn [submit_all] in Hall.
    destruct (submit e q s0) as [[[]| | |] s1] eqn:Hsub; try discriminate.
    pose proof (submit_spec e q s0 _ _ Hq Hsub) as (llm & r & docs & a & Hs & Hg & Hm & _).
    destruct (IH s1 Hqs Hall) as (answers & Hans & Ht).
    exists (a :: answers). split.
    + constructor; [|assumption]. exists llm, r, docs. auto.
    + rewrite Ht, (transcript_of_messages _ _ Hm).
      cbn [fmap list_fmap snd turns]. rewrite <- app_assoc. reflexivity.
Qed.

(** C4: after N submissions that complete, starting from an empty
    transcript, the transcript holds exactly 2N turns, alternating user and
    assistant from a user turn, and each assistant turn carries the text the
    completion provider returned for that question. *)
Theorem transcript_after_successful_submits
    (events : list (Env * string)) (s0 s : State) :
  transcript s0 = [] ->
  Forall (fun ev => Str.truthy ev.2 = true) events ->
  submit_all events s0 = Some s ->
  length (transcript s) = 2 * length events
  /\ alternating (transcript s) = true
  /\ exists answers,
       Forall2 answered_by events answers
       /\ transcript s = turns (events.*2) answers.
Proof.
  intros Hempty Hq Hall.
  destruct (submit_all_transcript events s0 s Hq Hall) as (answers & Hans & Ht).
  rewrite Hempty in Ht. cbn [app] in Ht.
  assert (Hlen : length (events.*2) = length answers).
  { rewrite length_fmap. eapply Forall2_length, Hans. }
  split; [|split].
  - rewrite Ht, turns_length by assumption. now rewrite length_fmap.
  - rewrite Ht. apply turns_alternating.
  - exists answers. auto.
Qed.

(** ** Start-up without the credential *)

Lemma run_without_key (e : Env) (s : State) :
  secrets e !! "GOOGLE_API_KEY" = None ->
  run e s = (Stopped, with_display missing_key_page s).
Proof.
  intros Hkey. rewrite run_eq, execute_script.
  rewrite (script_without_key e (clear_display s) Hkey).
  reflexivity.
Qed.

(** X20: when the secrets file is found but holds no GOOGLE_API_KEY, a run
    of the script, whatever the user did to trigger it, stops after the
    title, the caption, one error alert that says to set the key in
    secrets.toml and the info block listing the steps; no client is
    constructed and no provider is called, the chat box is never drawn, and
    the session state, hence the transcript, is left as it was. *)
Theorem missing_credential_halts (e : Env) (s : State) :
  secrets e !! "GOOGLE_API_KEY" = None ->
  (run e s).1 = Stopped
  /\ display (run e s).2 = missing_key_page
  /\ List.filter is_error (display (run e s).2) =
       [(Main, error missing_key_error (Some "🚨"))]
  /\ Str.occurs_in "secrets.toml" missing_key_error
  /\ List.filter is_chat_input (display (run e s).2) = []
  /\ calls (run e s).2 = calls s
  /\ resource_cache (run e s).2 = resource_cache s
  /\ session_messages (run e s).2 = session_messages s
  /\ transcript (run e s).2 = transcript s.
Proof.
  intros Hkey. rewrite (run_without_key e s Hkey).
  cbn [fst snd display calls resource_cache session_messages with_display transcript].
  repeat split.
  exists "Kunci API Google AI tidak ditemukan. Harap atur di file ", ".".
  reflexivity.
Qed.

(** Without a usable secrets file the access raises before the handler's
    class test can match, and nothing catches the exception. *)
Lemma script_without_secrets (msg : string) (e : Env) (s : State) :
  script_from (SecretsUnavailable msg) e s = (Raised (Exception msg), show header s).
Proof.
  unfold script_from, page_header, get_api_key_from, secrets_getitem.
  rewrite !bind_eq. step_monad. f_equal. state_eq.
Qed.

Lemma run_without_secrets (msg : string) (e : Env) (s : State) :
  run_from (SecretsUnavailable msg) e s =
  (Raised (Exception msg),
   with_display (header ++ [(Main, exception (Exception msg))]) s).
Proof.
  unfold run_from, execute_from. rewrite script_without_secrets.
  step_monad. cbn [snd]. f_equal.
Qed.


Example no_secrets_file_run :
  run_from (SecretsUnavailable "No secrets found.") (Stub.env Stub.answering)
    initial_state =
  (Raised (Exception "No secrets found."),
   with_display (header ++ [(Main, exception (Exception "No secrets found."))])
     initial_state).
Proof. vm_compute. reflexivity. Qed.

(** ** Reset *)

Lemma sections_1_3_ready (e : Env) (s : State) :
  page_ready e s = true ->
  exists llm r s1 shown,
    sections_1_3 e s = (Normal (llm, r), s1)
    /\ session_messages s1 = session_messages s
    /\ resource_cache s1 = Some (shown, (Some llm, Some r)).
Proof.
  intros Hready.
  pose proof (sections_1_3_spec e s) as (Hm & _ & Ho).
  destruct (sections_1_3 e s) as [[[llm r]| | |] s1]; cbn [fst snd] in *;
    try contradiction; [|congruence].
  destruct Ho as (_ & shown & Hc). exists llm, r, s1, shown. auto.
Qed.

(** C8: on a page that is up, a click on the reset button ends, after the
    rerun it asks for, with an empty transcript, whatever history the
    session held before (none, empty or any list of turns); the handler
    itself replaces the history by the empty list in every state. *)
Theorem reset_empties_transcript (e : Env) (s : State)
    (history : option (list message)) :
  page_ready e s = true ->
  let s0 := with_messages history s in
  (reset e s0).1 = Normal tt
  /\ session_messages (reset e s0).2 = Some []
  /\ transcript (reset e s0).2 = []
  /\ forall llm r s1,
       section_5 (with_widgets e {| reset_clicked := true; chat_submitted := None |})
         llm r s1 =
       (RerunRequested,
        with_messages (Some [])
          (show [(Sidebar, subheader "Opsi"); (Sidebar, button "Reset Percakapan")] s1)).
Proof.
  intros Hready0 s0.
  assert (Hready : page_ready e s0 = true) by exact Hready0.
  clearbody s0. clear Hready0 s history. rename s0 into s.
  assert (Hrun : (reset e s).1 = Normal tt
                 /\ session_messages (reset e s).2 = Some []
                 /\ transcript (reset e s).2 = []).
  { unfold reset. rewrite run_eq.
    set (e1 := with_widgets e _).
    rewrite execute_eq.
    destruct (sections_1_3_ready e1 (clear_display s) Hready)
      as (llm & r & s1 & shown & -> & Hm & Hc).
    cbn [fst snd]. rewrite (section_5_reset e1 llm r s1) by reflexivity.
    set (s2 := with_messages _ _).
    rewrite execute_eq.
    destruct (page_ready_key e s Hready) as [key Hkey].
    assert (Hready2 : page_ready (rerun_env e1) (clear_display s2) = true).
    { eapply page_ready_cached; [exact Hkey | exact Hc]. }
    destruct (sections_1_3_ready _ _ Hready2)
      as (llm' & r' & s3 & shown' & -> & Hm' & _).
    cbn [fst snd]. rewrite (section_5_idle _ llm' r' s3) by reflexivity.
    assert (Ht : transcript s3 = []).
    { apply transcript_of_messages. rewrite Hm'. reflexivity. }
    rewrite Ht. cbn [fst snd session_messages show with_display with_messages].
    unfold transcript. auto. }
  destruct Hrun as (H1 & H2 & H3). repeat (split; [assumption|]).
  intros llm r s1. now apply section_5_reset.
Qed.

(** ** A failing pipeline *)

Lemma filter_assistant_user (l : list message) (q : string) :
  List.filter is_assistant (l ++ [user_turn q]) = List.filter is_assistant l.
Proof. rewrite List.filter_app. cbn. apply app_nil_r. Qed.

(** C7: when the chain raises while answering a question, the run ends with
    that exception: the index was queried once and the model at most once,
    the page ends with the assistant box still showing only its spinner
    followed by the exception, no answer text is drawn, and the transcript
    has gained no assistant turn. *)
Theorem pipeline_failure_is_fatal
    (e : Env) (q : string) (s : State) (ex : exn) :
  Str.truthy q = true ->
  (submit e q s).1 = Raised ex ->
  let s' := (submit e q s).2 in
  List.filter is_assistant (transcript s') = List.filter is_assistant (transcript s)
  /\ (exists before,
        display s' =
        before ++ page_until_answer (transcript s) q ++ [(Main, exception ex)])
  /\ exists llm r,
       (similarity_search (providers e) (vectorstore r) q (search_k r) = Err ex
        /\ queries (calls s') =
             queries (calls s) ++ [Search (vectorstore r) q (search_k r)])
       \/ (exists docs,
             similarity_search (providers e) (vectorstore r) q (search_k r) = Ok docs
             /\ generate (providers e) llm (chain_prompt docs q) = Err ex
             /\ queries (calls s') =
                  queries (calls s) ++
                  [Search (vectorstore r) q (search_k r);
                   Generate llm (chain_prompt docs q)]).
Proof.
  intros Hq Hraised s'. subst s'.
  destruct (submit e q s) as [o s'] eqn:Hsub. cbn [fst snd] in *. subst o.
  pose proof (submit_spec e q s _ _ Hq Hsub) as (llm & r & Hm & Hd & Hcalls).
  split; [|split].
  - rewrite (transcript_of_messages _ _ Hm). apply filter_assistant_user.
  - exact Hd.
  - exists llm, r. exact Hcalls.
Qed.

(** ** The unpaired question *)

(** The handler stores the user turn first and runs the chain from that
    state; only a normal return of the chain lets it store the answer. *)
Lemma handle_prompt_eq (e : Env) (llm : ChatGoogleGenerativeAI) (r : Retriever)
    (q : string) (l : list message) (s : State) :
  session_messages s = Some l ->
  handle_prompt e llm r q s =
  let s1 := show [(Main, chat_message "user"); (Chat "user", markdown q);
                  (Main, chat_message "assistant");
                  (Chat "assistant", spinner "Mencari jawaban...")]
              (with_messages (Some (l ++ [user_turn q])) s) in
  match rag_chain_invoke e llm r q s1 with
  | (Normal a, s2) =>
      (Normal tt,
       with_messages (Some (l ++ [user_turn q; assistant_turn a]))
         (show [(Chat "assistant", markdown a)] s2))
  | (Raised ex, s2) => (Raised ex, s2)
  | (Stopped, s2) => (Stopped, s2)
  | (RerunRequested, s2) => (RerunRequested, s2)
  end.
Proof.
  intros Hm. unfold handle_prompt, append_message, get_messages.
  rewrite !bind_eq. rewrite Hm. step_monad.
  cbn [session_messages show with_messages with_display].
  match goal with
  | |- context [rag_chain_invoke e llm r q ?a] =>
      replace a with
        (show [(Main, chat_message "user"); (Chat "user", markdown q);
               (Main, chat_message "assistant");
               (Chat "assistant", spinner "Mencari jawaban...")]
           (with_messages (Some (l ++ [user_turn q])) s)) by state_eq
  end.
  cbv zeta. rewrite rag_chain_invoke_eq. cbv zeta.
  destruct (similarity_search _ _ _ _) as [docs|ex]; [|reflexivity].
  destruct (generate _ _ _) as [a|ex]; [|reflexivity].
  cbn [session_messages show log with_messages with_display with_calls].
  f_equal. state_eq.
Qed.

(** C10: the handler appends the user turn before it invokes the chain, and
    nothing takes it back: when the chain raises, the transcript after the
    run is the earlier transcript followed by that one user turn. *)
Theorem failed_submit_keeps_user_turn
    (e : Env) (q : string) (s : State) (ex : exn) :
  Str.truthy q = true ->
  (submit e q s).1 = Raised ex ->
  session_messages (submit e q s).2 = Some (transcript s ++ [user_turn q])
  /\ transcript (submit e q s).2 = transcript s ++ [user_turn q]
  /\ forall llm r l s0 s2,
       session_messages s0 = Some l ->
       rag_chain_invoke e llm r q
         (show [(Main, chat_message "user"); (Chat "user", markdown q);
                (Main, chat_message "assistant");
                (Chat "assistant", spinner "Mencari jawaban...")]
            (with_messages (Some (l ++ [user_turn q])) s0)) = (Raised ex, s2) ->
       handle_prompt e llm r q s0 = (Raised ex, s2)
       /\ session_messages s2 = Some (l ++ [user_turn q]).
Proof.
  intros Hq Hraised.
  destruct (submit e q s) as [o s'] eqn:Hsub. cbn [fst snd] in *. subst o.
  pose proof (submit_spec e q s _ _ Hq Hsub) as (_ & _ & Hm & _).
  split; [exact Hm|]. split; [exact (transcript_of_messages _ _ Hm)|].
  intros llm r l s0 s2 Hl Hchain. split.
  - rewrite (handle_prompt_eq e llm r q l s0 Hl). cbv zeta. now rewrite Hchain.
  - rewrite rag_chain_invoke_eq in Hchain. cbv zeta in Hchain.
    destruct (similarity_search _ _ _ _) as [docs|ex'].
    + destruct (generate _ _ _) as [a|ex'']; [discriminate|].
      injection Hchain as _ <-. reflexivity.
    + injection Hchain as _ <-. reflexivity.
Qed.

(** ** Retrieval *)

(** On a cold cache the components are the ones section 3 spells out; the
    retriever asks for three chunks. *)
Lemma get_components_fresh (e : Env) (key : string) (s s' : State)
    (llm : ChatGoogleGenerativeAI) (r : Retriever) :
  resource_cache s = None ->
  get_components e key s = (Normal (llm, r), s') ->
  llm = llm_config key /\ r = script_retriever key /\ search_k r = 3.
Proof.
  intros Hc. unfold get_components, load_components, cache_resource,
    load_components_body.
  rewrite bind_eq, Hc. step_monad.
  destruct (new_llm _ _) as [|?]; step_monad; [|discriminate].
  destruct (new_embeddings _ _) as [|?]; step_monad; [|discriminate].
  destruct (open_chroma _ _) as [|?]; step_monad; [|discriminate].
  intros [= <- <- _]. auto.
Qed.

Section Retrieval.

Context {Score : Type} (score_le : relation Score).
Context `{!∀ x y, Decision (score_le x y)}.
Variable similarity : string -> Document -> Score.

#[local] Abbreviation closer := (more_similar score_le similarity).
#[local] Abbreviation nearest := (top_k score_le similarity).

Lemma retriever_invoke_index (e : Env) (index : list Document) (r : Retriever)
    (q : string) (s : State) :
  retriever_invoke
    (with_providers e (with_index score_le similarity index (providers e))) r q s =
  (Normal (nearest index q (search_k r)),
   log [Search (vectorstore r) q (search_k r)] s).
Proof. reflexivity. Qed.

Lemma top_k_length (index : list Document) (q : string) (k : nat) :
  length (nearest index q k) = min k (length index).
Proof.
  unfold top_k. rewrite length_take.
  now rewrite (Permutation_length (merge_sort_Permutation (closer q) index)).
Qed.

Lemma top_k_split (index : list Document) (q : string) (k : nat) :
  nearest index q k ++ drop k (merge_sort (closer q) index) ≡ₚ index.
Proof. unfold top_k. rewrite take_drop. apply merge_sort_Permutation. Qed.

Section Ordered.

Context `{!Transitive score_le} `{!Total score_le}.

#[local] Instance closer_transitive q : Transitive (closer q).
Proof. intros a b c Hab Hbc. unfold more_similar in *. etrans; eassumption. Qed.

#[local] Instance closer_total q : Total (closer q).
Proof. intros a b. unfold more_similar. destruct (total score_le (similarity q a) (similarity q b)); auto. Qed.

Lemma top_k_sorted (index : list Document) (q : string) (k : nat) :
  StronglySorted (closer q) (nearest index q k).
Proof.
  unfold top_k.
  pose proof (StronglySorted_merge_sort (closer q) index) as Hs.
  rewrite <- (take_drop k (merge_sort (closer q) index)) in Hs.
  eapply StronglySorted_app_1_l, Hs.
Qed.

Lemma top_k_best (index : list Document) (q : string) (k : nat) (d d' : Document) :
  d ∈ nearest index q k ->
  d' ∈ drop k (merge_sort (closer q) index) ->
  closer q d d'.
Proof.
  unfold top_k. intros Hd Hd'.
  pose proof (StronglySorted_merge_sort (closer q) index) as Hs.
  rewrite <- (take_drop k (merge_sort (closer q) index)) in Hs.
  eapply StronglySorted_app_1_elem_of; eassumption.
Qed.

(** C3: the script's retriever asks the index for K = 3 chunks and hands
    on what the index returns, unchanged, to the joiner; with the index
    returning its top K, the retrieved chunks are at most K, exactly K when
    the index holds at least K, in descending order of similarity, and they
    are entries of the index, duplicates included, none of the left-out
    entries being more similar than a returned one. *)
Theorem retrieve_top_k (e : Env) (index : list Document)
    (key q : string) (llm : ChatGoogleGenerativeAI) (s : State) :
  let e' := with_providers e (with_index score_le similarity index (providers e)) in
  let r := script_retriever key in
  let docs := nearest index q K in
  K = 3
  /\ retriever_invoke e' r q s = (Normal docs, log [Search (vectorstore r) q K] s)
  /\ length docs <= K
  /\ (K <= length index -> length docs = K)
  /\ length docs = min K (length index)
  /\ StronglySorted (closer q) docs
  /\ (exists rest,
        docs ++ rest ≡ₚ index
        /\ forall d d', d ∈ docs -> d' ∈ rest -> closer q d d')
  /\ calls (rag_chain_invoke e' llm r q s).2 =
       calls s ++ [Search (vectorstore r) q K; Generate llm (chain_prompt docs q)].
Proof.
  intros e' r docs. subst e' r docs.
  pose proof (top_k_length index q K) as Hlen.
  split; [reflexivity|]. split; [apply retriever_invoke_index|].
  split; [lia|]. split; [lia|]. split; [exact Hlen|].
  split; [apply top_k_sorted|]. split.
  - exists (drop K (merge_sort (closer q) index)). split.
    + apply top_k_split.
    + intros d d'. apply top_k_best.
  - rewrite rag_chain_invoke_eq. cbv zeta.
    cbn [providers with_providers similarity_search with_index
         search_k vectorstore script_retriever as_retriever].
    destruct (generate _ _ _); cbn [snd calls log with_calls];
      now rewrite <- app_assoc.
Qed.

End Ordered.

(** C9: with no chunk in the index the retriever returns the empty list,
    the joined context is the empty string, and the composer still renders
    the template: the instruction block, an empty context, the question,
    the answer cue; that prompt is what the model receives. *)
Theorem empty_index_still_prompts (e : Env) (key q : string)
    (llm : ChatGoogleGenerativeAI) (s : State) :
  let e' := with_providers e (with_index score_le similarity [] (providers e)) in
  let r := script_retriever key in
  nearest [] q K = []
  /\ retriever_invoke e' r q s = (Normal [], log [Search (vectorstore r) q K] s)
  /\ format_docs [] = EmptyString
  /\ compose (format_docs []) q =
       Ok (instructions +:+ EmptyString +:+ before_question +:+ q +:+ answer_cue)
  /\ calls (rag_chain_invoke e' llm r q s).2 =
       calls s ++
       [Search (vectorstore r) q K;
        Generate llm (instructions +:+ before_question +:+ q +:+ answer_cue)].
Proof.
  intros e' r. subst e' r.
  split; [reflexivity|]. split; [reflexivity|]. split; [reflexivity|].
  split; [apply compose_eq|].
  rewrite rag_chain_invoke_eq. cbv zeta.
  cbn [providers with_providers similarity_search with_index
       search_k vectorstore script_retriever as_retriever].
  change (top_k score_le similarity [] q K) with (@nil Document).
  change (chain_prompt [] q)
    with (instructions +:+ before_question +:+ q +:+ answer_cue).
  destruct (generate _ _ _); cbn [snd calls log with_calls];
    now rewrite <- app_assoc.
Qed.

End Retrieval.

(** ** The properties on the test double *)

Example stub_top_3 :
  top_k Z.le Stub.by_length Stub.chunks "Kapan pendaftaran?" K =
  [ {| page_content := "Pendaftaran dibuka bulan Mei." |};
    {| page_content := "Biaya kuliah per semester." |};
    {| page_content := "Vokasi" |} ].
Proof. vm_compute. reflexivity. Qed.

Example stub_two_questions :
  transcript Stub.after_two_questions =
  [ user_turn "Kapan pendaftaran?"; assistant_turn "Pendaftaran dibuka bulan Mei.";
    user_turn "Berapa biayanya?"; assistant_turn "Pendaftaran dibuka bulan Mei." ].
Proof. vm_compute. reflexivity. Qed.

Example stub_failed_question :
  transcript (submit (Stub.env Stub.out_of_quota) "Kapan pendaftaran?" initial_state).2 =
  [ user_turn "Kapan pendaftaran?" ].
Proof. vm_compute. reflexivity. Qed.

Lemma prompt_contains_question_and_chunks_witness :
  similarity_search Stub.answering
    (vectorstore (script_retriever "AIza-test")) "Kapan pendaftaran?"
    (search_k (script_retriever "AIza-test")) = Ok (take 3 Stub.chunks)
  /\ exists p,
      compose (format_docs (take 3 Stub.chunks)) "Kapan pendaftaran?" = Ok p
      /\ calls (rag_chain_invoke (Stub.env Stub.answering) (llm_config "AIza-test")
                  (script_retriever "AIza-test") "Kapan pendaftaran?"
                  initial_state).2 =
           calls initial_state ++
           [Search (vectorstore (script_retriever "AIza-test")) "Kapan pendaftaran?"
              (search_k (script_retriever "AIza-test"));
            Generate (llm_config "AIza-test") p]
      /\ Str.occurs_in "Kapan pendaftaran?" p
      /\ forall d, d ∈ take 3 Stub.chunks -> Str.occurs_in (page_content d) p.
Proof.
  split; [reflexivity|].
  apply (prompt_contains_question_and_chunks (Stub.env Stub.answering)
           (llm_config "AIza-test") (script_retriever "AIza-test")
           "Kapan pendaftaran?" (take 3 Stub.chunks) initial_state).
  reflexivity.
Defined.

Lemma retrieve_top_k_witness :
  Transitive Z.le /\ Total Z.le
  /\ length (top_k Z.le Stub.by_length Stub.chunks "Kapan pendaftaran?" K) = 3
  /\ StronglySorted (more_similar Z.le Stub.by_length "Kapan pendaftaran?")
       (top_k Z.le Stub.by_length Stub.chunks "Kapan pendaftaran?" K).
Proof.
  assert (Htrans : Transitive Z.le) by (intros x y z Hxy Hyz; lia).
  assert (Htotal : Total Z.le) by (intros x y; lia).
  pose proof (@retrieve_top_k Z Z.le _ Stub.by_length Htrans Htotal
                (Stub.env Stub.answering) Stub.chunks "AIza-test"
                "Kapan pendaftaran?" (llm_config "AIza-test") initial_state) as H.
  cbv zeta in H.
  destruct H as (_ & _ & _ & Hk & _ & Hsorted & _).
  split; [exact Htrans|]. split; [exact Htotal|].
  split; [apply Hk; vm_compute; lia | exact Hsorted].
Defined.

Lemma transcript_after_successful_submits_witness :
  transcript initial_state = []
  /\ Forall (fun ev => Str.truthy ev.2 = true) Stub.two_questions
  /\ submit_all Stub.two_questions initial_state = Some Stub.after_two_questions
  /\ length (transcript Stub.after_two_questions) = 2 * length Stub.two_questions
  /\ alternating (transcript Stub.after_two_questions) = true.
Proof.
  assert (H1 : transcript initial_state = []) by reflexivity.
  assert (H2 : Forall (fun ev => Str.truthy ev.2 = true) Stub.two_questions)
    by (repeat constructor).
  assert (H3 : submit_all Stub.two_questions initial_state =
               Some Stub.after_two_questions) by (vm_compute; reflexivity).
  destruct (transcript_after_successful_submits
              Stub.two_questions initial_state Stub.after_two_questions H1 H2 H3)
    as (Hlen & Halt & _).
  auto.
Defined.

Lemma missing_credential_halts_witness :
  secrets Stub.env_without_key !! "GOOGLE_API_KEY" = None
  /\ (run Stub.env_without_key initial_state).1 = Stopped
  /\ transcript (run Stub.env_without_key initial_state).2 = [].
Proof.
  assert (H : secrets Stub.env_without_key !! "GOOGLE_API_KEY" = None)
    by reflexivity.
  destruct (missing_credential_halts Stub.env_without_key initial_state H)
    as (Hstop & _ & _ & _ & _ & _ & _ & _ & Ht).
  auto.
Defined.

Lemma pipeline_failure_is_fatal_witness :
  Str.truthy "Kapan pendaftaran?" = true
  /\ (submit (Stub.env Stub.out_of_quota) "Kapan pendaftaran?" initial_state).1 =
       Raised (Exception "429 quota exceeded")
  /\ List.filter is_assistant
       (transcript
          (submit (Stub.env Stub.out_of_quota) "Kapan pendaftaran?" initial_state).2) =
     List.filter is_assistant (transcript initial_state).
Proof.
  assert (H1 : Str.truthy "Kapan pendaftaran?" = true) by reflexivity.
  assert (H2 : (submit (Stub.env Stub.out_of_quota) "Kapan pendaftaran?"
                  initial_state).1 = Raised (Exception "429 quota exceeded"))
    by (vm_compute; reflexivity).
  pose proof (pipeline_failure_is_fatal (Stub.env Stub.out_of_quota)
                "Kapan pendaftaran?" initial_state _ H1 H2) as H.
  cbv zeta in H. destruct H as (Hno & _).
  auto.
Defined.

Lemma reset_empties_transcript_witness :
  page_ready (Stub.env Stub.answering) initial_state = true
  /\ transcript
       (reset (Stub.env Stub.answering)
          (with_messages (Some (turns ["Kapan pendaftaran?"] ["Bulan Mei."]))
             initial_state)).2 = [].
Proof.
  assert (H : page_ready (Stub.env Stub.answering) initial_state = true)
    by reflexivity.
  pose proof (reset_empties_transcript (Stub.env Stub.answering) initial_state
                (Some (turns ["Kapan pendaftaran?"] ["Bulan Mei."])) H) as Hr.
  cbv zeta in Hr. destruct Hr as (_ & _ & Ht & _).
  split; [exact H | exact Ht].
Defined.

Lemma failed_submit_keeps_user_turn_witness :
  Str.truthy "Berapa biayanya?" = true
  /\ (submit (Stub.env Stub.out_of_quota) "Berapa biayanya?"
        Stub.after_two_questions).1 = Raised (Exception "429 quota exceeded")
  /\ transcript (submit (Stub.env Stub.out_of_quota) "Berapa biayanya?"
                   Stub.after_two_questions).2 =
     transcript Stub.after_two_questions ++ [user_turn "Berapa biayanya?"].
Proof.
  assert (H1 : Str.truthy "Berapa biayanya?" = true) by reflexivity.
  assert (H2 : (submit (Stub.env Stub.out_of_quota) "Berapa biayanya?"
                  Stub.after_two_questions).1 =
               Raised (Exception "429 quota exceeded"))
    by (vm_compute; reflexivity).
  destruct (failed_submit_keeps_user_turn (Stub.env Stub.out_of_quota)
              "Berapa biayanya?" Stub.after_two_questions _ H1 H2)
    as (_ & Ht & _).
  auto.
Defined.

(** * The rest of the script *)

(** Closes an equation between two results of a run. *)
Ltac same_result := first [reflexivity | f_equal; state_eq].

(** ** Loading the components *)

Lemma load_components_hit (e : Env) (key : string) (s : State) shown c :
  resource_cache s = Some (shown, c) ->
  load_components e key s = (Normal c, show shown s).
Proof. intros Hc. unfold load_components, cache_resource. now rewrite Hc. Qed.

Lemma load_components_cold (e : Env) (key : string) (s : State) :
  resource_cache s = None ->
  load_components e key s =
  match init_attempt (providers e) key with
  | (cs, Some text) =>
      (Normal (None, None),
       with_cache (Some ([init_error text], (None, None)))
         (show [init_error text] (log cs s)))
  | (cs, None) =>
      (Normal (Some (llm_config key), Some (script_retriever key)),
       with_cache (Some ([], (Some (llm_config key), Some (script_retriever key))))
         (log cs s))
  end.
Proof.
  intros Hc. unfold load_components, cache_resource, load_components_body, init_attempt.
  rewrite Hc. step_monad.
  destruct (new_llm _ _) as [|ex]; step_monad.
  2:{ eval_state. rewrite drop_app_length. same_result. }
  destruct (new_embeddings _ _) as [|ex]; step_monad.
  2:{ eval_state. rewrite drop_app_length. same_result. }
  destruct (open_chroma _ _) as [|ex]; step_monad.
  2:{ eval_state. rewrite drop_app_length. same_result. }
  eval_state. rewrite drop_all. same_result.
Qed.

Lemma sections_1_3_without_key (e : Env) (s : State) :
  secrets e !! "GOOGLE_API_KEY" = None ->
  sections_1_3 e s = (Stopped, show missing_key_page s).
Proof.
  intros Hkey. unfold sections_1_3, page_header, get_api_key, get_api_key_from, secrets_getitem.
  rewrite !bind_eq. step_monad. rewrite Hkey. step_monad. same_result.
Qed.

Lemma sections_1_3_with_key (e : Env) (key : string) (s : State) :
  secrets e !! "GOOGLE_API_KEY" = Some key ->
  sections_1_3 e s =
  match load_components e key (show header s) with
  | (Normal (Some llm, Some r), s1) => (Normal (llm, r), s1)
  | (Normal _, s1) => (Stopped, s1)
  | (Raised ex, s1) => (Raised ex, s1)
  | (Stopped, s1) => (Stopped, s1)
  | (RerunRequested, s1) => (RerunRequested, s1)
  end.
Proof.
  intros Hkey. unfold sections_1_3, page_header, get_api_key, get_api_key_from, secrets_getitem,
    get_components.
  rewrite !bind_eq. step_monad. rewrite Hkey. step_monad.
  replace (show [(Main, caption "Tanyakan apapun terkait dokumen pengetahuan Anda")]
             (show [(Main, title "💬 Vokasi Assistant (RAG Version)")] s))
    with (show header s) by state_eq.
  destruct (load_components e key (show header s)) as [[[[llm|] [r|]]| | |] s1];
    reflexivity.
Qed.

(** The chat page, whatever the widgets say. *)
Lemma section_5_idle_run (e : Env) (llm : ChatGoogleGenerativeAI) (r : Retriever)
    (s : State) :
  idle (widgets e) = true ->
  section_5 e llm r s =
  (Normal tt,
   show (sidebar_view ++ history_view (transcript s) ++
         [(Main, chat_input "Apa yang ingin Anda tanyakan?")])
     (with_messages (Some (transcript s)) s)).
Proof.
  unfold idle. intros Hidle.
  apply andb_true_iff in Hidle as [Hreset Hchat].
  apply negb_true_iff in Hreset.
  destruct (chat_submitted (widgets e)) as [q|] eqn:Hq.
  - apply negb_true_iff in Hchat.
    unfold section_5, sidebar. rewrite Hreset.
    rewrite !bind_eq. step_monad. rewrite init_history_eq.
    rewrite (show_history_eq (transcript s)) by reflexivity.
    unfold chat. rewrite Hq, Hchat. rewrite bind_eq. step_monad.
    unfold sidebar_view. same_result.
  - now apply section_5_idle.
Qed.

Lemma widgets_cases (w : Widgets) :
  reset_clicked w = true
  \/ (reset_clicked w = false /\ idle w = true)
  \/ exists q, reset_clicked w = false /\ chat_submitted w = Some q
               /\ Str.truthy q = true.
Proof.
  unfold idle. destruct (reset_clicked w); [auto|]. right.
  destruct (chat_submitted w) as [q|]; [|auto].
  destruct (Str.truthy q) eqn:Hq; [right; eauto | left; auto].
Qed.

Lemma init_attempt_calls (p : Providers) (key : string) :
  queries (init_attempt p key).1 = []
  /\ constructions (init_attempt p key).1 = (init_attempt p key).1
  /\ (init_attempt p key).1 `prefix_of` construction_calls key
  /\ ((init_attempt p key).2 = None ->
      (init_attempt p key).1 = construction_calls key).
Proof.
  unfold init_attempt.
  destruct (new_llm _ _) as [|?];
    [destruct (new_embeddings _ _) as [|?];
     [destruct (open_chroma _ _) as [|?]|]|];
    cbn; repeat split; try discriminate;
    try reflexivity; try (eexists; reflexivity).
Qed.

(** Splits one execution of the script into its possible courses. *)
Ltac section_5_cases e llm r :=
  cbn [fst snd];
  let Hreset := fresh "Hreset" in
  let Hidle := fresh "Hidle" in
  let Hq := fresh "Hq" in
  let Htruthy := fresh "Htruthy" in
  let q := fresh "q" in
  destruct (widgets_cases (widgets e))
    as [Hreset | [[Hreset Hidle] | (q & Hreset & Hq & Htruthy)]];
  [ rewrite (section_5_reset e llm r) by exact Hreset
  | rewrite (section_5_idle_run e llm r) by exact Hidle
  | rewrite (section_5_submit e llm r q) by assumption; cbv zeta;
    let docs := fresh "docs" in
    let a := fresh "a" in
    let ex := fresh "ex" in
    let Hsearch := fresh "Hsearch" in
    let Hgen := fresh "Hgen" in
    destruct (similarity_search _ _ _ _) as [docs|ex] eqn:Hsearch;
    [ destruct (generate _ _ _) as [a|ex] eqn:Hgen | ] ].

Ltac execute_cases e s :=
  rewrite (execute_eq e s);
  let key := fresh "key" in
  let Hkey := fresh "Hkey" in
  destruct (secrets e !! "GOOGLE_API_KEY") as [key|] eqn:Hkey;
  [ rewrite (sections_1_3_with_key e key _ Hkey);
    let shown := fresh "shown" in
    let llm := fresh "llm" in
    let r := fresh "r" in
    let Hcache := fresh "Hcache" in
    destruct (resource_cache s) as [[shown [[llm|] [r|]]]|] eqn:Hcache;
    [ rewrite (load_components_hit e key (show header (clear_display s)) _ _ Hcache);
      section_5_cases e llm r
    | rewrite (load_components_hit e key (show header (clear_display s)) _ _ Hcache)
    | rewrite (load_components_hit e key (show header (clear_display s)) _ _ Hcache)
    | rewrite (load_components_hit e key (show header (clear_display s)) _ _ Hcache)
    | rewrite (load_components_cold e key (show header (clear_display s)) Hcache);
      let cs := fresh "cs" in
      let ex := fresh "ex" in
      let Hinit := fresh "Hinit" in
      destruct (init_attempt (providers e) key) as [cs [ex|]] eqn:Hinit;
      [ | section_5_cases e (llm_config key) (script_retriever key) ] ]
  | rewrite (sections_1_3_without_key e _ Hkey) ].

Lemma constructions_app (a b : list call) :
  constructions (a ++ b) = constructions a ++ constructions b.
Proof. apply List.filter_app. Qed.

Lemma execute_warm (e : Env) (s : State) c :
  resource_cache s = Some c ->
  resource_cache (execute e s).2 = Some c
  /\ constructions (calls (execute e s).2) = constructions (calls s).
Proof.
  intros Hc. execute_cases e s; try discriminate;
    eval_state; rewrite ?constructions_app, ?app_nil_r; cbn [constructions List.filter is_query negb app];
    rewrite ?app_nil_r; split; congruence.
Qed.

Lemma execute_transcript (e : Env) (s : State) :
  reset_clicked (widgets e) = false ->
  (execute e s).1 <> RerunRequested
  /\ exists added,
       transcript (execute e s).2 = transcript s ++ added
       /\ (added = []
           \/ (exists q ex,
                 chat_submitted (widgets e) = Some q
                 /\ (execute e s).1 = Raised ex
                 /\ added = [user_turn q])
           \/ (exists q a,
                 chat_submitted (widgets e) = Some q
                 /\ (execute e s).1 = Normal tt
                 /\ added = [user_turn q; assistant_turn a])).
Proof.
  intros Hnoreset. execute_cases e s; try congruence;
    (split; [discriminate|]); unfold transcript at 1; eval_state;
    cbn [default]; fold (transcript s).
  all: try (exists []; rewrite app_nil_r; split; [reflexivity | left; reflexivity]).
  all: try (eexists; split; [reflexivity|]).
  all: try (right; right; eexists _, _; repeat split; eassumption).
  all: try (right; left; eexists _, _; repeat split; eassumption).
Qed.

Lemma execute_queries (e : Env) (s : State) :
  exists qs,
    queries (calls (execute e s).2) = queries (calls s) ++ qs
    /\ (reset_clicked (widgets e) = true \/ idle (widgets e) = true -> qs = [])
    /\ (qs = []
        \/ exists q store k,
             chat_submitted (widgets e) = Some q
             /\ Str.truthy q = true
             /\ ((exists ex,
                    similarity_search (providers e) store q k = Err ex
                    /\ qs = [Search store q k])
                 \/ (exists llm docs,
                       similarity_search (providers e) store q k = Ok docs
                       /\ qs = [Search store q k;
                                Generate llm (chain_prompt docs q)]))).
Proof.
  pose proof (init_attempt_calls (providers e)) as Hinit_calls.
  assert (Hexcl : forall q,
             reset_clicked (widgets e) = false ->
             chat_submitted (widgets e) = Some q ->
             Str.truthy q = true ->
             reset_clicked (widgets e) = true \/ idle (widgets e) = true -> False).
  { intros q Hr Hq Ht [Hr'|Hi]; [congruence|].
    unfold idle in Hi. rewrite Hr, Hq, Ht in Hi. discriminate. }
  execute_cases e s; eval_state; rewrite ?queries_app;
    try match goal with
        | H : init_attempt (providers e) ?k = _ |- _ =>
            destruct (Hinit_calls k) as (Hqs & _); rewrite H in Hqs;
            cbn [fst] in Hqs; rewrite Hqs
        end;
    cbn [queries List.filter is_query app]; rewrite <- ?app_assoc, ?app_nil_r;
    cbn [app].
  all: try (exists []; rewrite app_nil_r;
            split; [reflexivity | split; [reflexivity | left; reflexivity]]).
  all: eexists; (split; [reflexivity|]); (split; [intros Hw; exfalso; eauto|]);
    right; eexists _, _, _; (split; [eassumption|]); (split; [assumption|]).
  all: first [ left; eexists; split; [eassumption | reflexivity]
             | right; eexists _, _; split; [eassumption | reflexivity] ].
Qed.

Lemma cache_ok_with_key (s : State) shown (key : string) :
  resource_cache s = Some (shown, (Some (llm_config key), Some (script_retriever key))) ->
  cache_ok s.
Proof. intros H. unfold cache_ok. rewrite H. eauto. Qed.

Lemma construction_calls_ok (key : string) (cs : list call) :
  cs `prefix_of` construction_calls key -> Forall call_ok cs.
Proof.
  intros [rest Hrest]. 
  assert (Hall : Forall call_ok (construction_calls key)).
  { repeat constructor; cbn; eauto. }
  rewrite Hrest in Hall. now apply Forall_app in Hall as [? _].
Qed.

Lemma execute_calls_ok (e : Env) (s : State) :
  cache_ok s ->
  cache_ok (execute e s).2
  /\ exists added,
       calls (execute e s).2 = calls s ++ added /\ Forall call_ok added.
Proof.
  intros Hok. pose proof (init_attempt_calls (providers e)) as Hinit_calls.
  unfold cache_ok in Hok |- *.
  execute_cases e s; eval_state;
    try rewrite Hcache in Hok; try destruct Hok as (key' & -> & ->);
    try match goal with
        | H : init_attempt (providers e) ?k = _ |- _ =>
            destruct (Hinit_calls k) as (_ & _ & Hpre & _); rewrite H in Hpre;
            cbn [fst] in Hpre; apply construction_calls_ok in Hpre
        end;
    rewrite ?Hcache; (split; [eauto|]); rewrite <- ?app_assoc; cbn [app].
  all: try (exists []; rewrite app_nil_r; split; [reflexivity | constructor]).
  all: eexists; (split; [reflexivity|]).
  all: try assumption.
  all: rewrite ?Forall_app; repeat split; try assumption;
    repeat constructor; cbn; eauto.
Qed.

(** ** Start-up *)

(** X1: when the key is present, nothing is cached yet and one of the three
    constructors raises an exception whose [str(e)] is [text], the run stops
    on one alert that ends with [text]: the constructors after the failing
    one are not reached, no provider is queried, the chat box is not drawn,
    the session state is untouched, and the pair of [None]s is what the
    cache keeps. *)
Theorem failed_initialisation_stops
    (e : Env) (s : State) (key : string) (cs : list call) (text : string) :
  secrets e !! "GOOGLE_API_KEY" = Some key ->
  resource_cache s = None ->
  init_attempt (providers e) key = (cs, Some text) ->
  run e s =
    (Stopped,
     with_cache (Some ([init_error text], (None, None)))
       (with_calls (calls s ++ cs)
          (with_display (header ++ [init_error text]) s)))
  /\ cs `prefix_of` construction_calls key
  /\ queries cs = []
  /\ session_messages (run e s).2 = session_messages s
  /\ List.filter is_chat_input (display (run e s).2) = [].
Proof.
  intros Hkey Hcache Hinit.
  assert (Hrun : run e s =
    (Stopped,
     with_cache (Some ([init_error text], (None, None)))
       (with_calls (calls s ++ cs)
          (with_display (header ++ [init_error text]) s)))).
  { rewrite run_eq. rewrite execute_eq, (sections_1_3_with_key e key _ Hkey).
    rewrite (load_components_cold e key (show header (clear_display s)) Hcache).
    rewrite Hinit. same_result. }
  destruct (init_attempt_calls (providers e) key) as (Hq & _ & Hpre & _).
  rewrite Hinit in Hq, Hpre. cbn [fst] in Hq, Hpre.
  rewrite Hrun. auto.
Qed.

(** X2: a failed initialisation is remembered: from the state it leaves,
    every later run under secrets that hold a key stops again without
    calling any constructor or provider, whatever the services would now
    answer and whatever the user does; the cache entry and the session
    state stay as they are. *)
Theorem failed_initialisation_is_cached
    (e e' : Env) (s : State) (key key' : string) (cs : list call) (text : string) :
  secrets e !! "GOOGLE_API_KEY" = Some key ->
  resource_cache s = None ->
  init_attempt (providers e) key = (cs, Some text) ->
  secrets e' !! "GOOGLE_API_KEY" = Some key' ->
  (run e' (run e s).2).1 = Stopped
  /\ calls (run e' (run e s).2).2 = calls (run e s).2
  /\ resource_cache (run e' (run e s).2).2 = Some ([init_error text], (None, None))
  /\ session_messages (run e' (run e s).2).2 = session_messages s.
Proof.
  intros Hkey Hcache Hinit Hkey'.
  assert (Hrun : run e s =
    (Stopped,
     with_cache (Some ([init_error text], (None, None)))
       (with_calls (calls s ++ cs)
          (with_display (header ++ [init_error text]) s)))).
  { rewrite run_eq. rewrite execute_eq, (sections_1_3_with_key e key _ Hkey).
    rewrite (load_components_cold e key (show header (clear_display s)) Hcache).
    rewrite Hinit. same_result. }
  rewrite Hrun. cbn [snd]. rewrite run_eq.
  rewrite execute_eq, (sections_1_3_with_key e' key' _ Hkey').
  erewrite load_components_hit by reflexivity.
  cbn [fst snd]. eval_state. auto.
Qed.

(** X3: once the cache holds an entry, no run constructs a client again and
    no run changes the entry, whatever the secrets, the services or the
    widgets are. *)
Theorem warm_cache_builds_nothing (e : Env) (s : State)
    (c : list (container * element) * components) :
  resource_cache s = Some c ->
  resource_cache (run e s).2 = Some c
  /\ constructions (calls (run e s).2) = constructions (calls s).
Proof.
  intros Hc. rewrite run_eq.
  destruct (execute_warm e s c Hc) as [Hc1 Hb1].
  destruct (execute e s) as [[[]| | |] s1]; cbn [fst snd] in *; auto.
  destruct (execute_warm (rerun_env e) s1 c Hc1) as [Hc2 Hb2].
  split; congruence.
Qed.

Lemma execute_cold (e : Env) (s : State) (key : string) :
  secrets e !! "GOOGLE_API_KEY" = Some key ->
  resource_cache s = None ->
  (init_attempt (providers e) key).2 = None ->
  resource_cache (execute e s).2 =
    Some ([], (Some (llm_config key), Some (script_retriever key)))
  /\ constructions (calls (execute e s).2) =
       constructions (calls s) ++ construction_calls key.
Proof.
  intros Hk Hc Hinit.
  destruct (init_attempt_calls (providers e) key) as (_ & _ & _ & Hall).
  specialize (Hall Hinit).
  execute_cases e s; try congruence;
    simplify_eq;
    match goal with
    | H : init_attempt _ _ = _ |- _ =>
        rewrite H in Hinit, Hall; cbn [fst snd] in Hinit, Hall
    end;
    try discriminate; subst;
    eval_state; rewrite ?constructions_app;
    cbn [constructions List.filter is_query negb app construction_calls];
    rewrite ?app_nil_r; auto.
Qed.

(** X4: on a cold cache with the key present and the three constructors
    answering, a run builds the chat model, the embeddings and the vector
    store once, in that order, each with the key read from the secrets, and
    caches the model and a retriever that asks for three chunks. *)
Theorem cold_start_builds_components (e : Env) (s : State) (key : string) :
  secrets e !! "GOOGLE_API_KEY" = Some key ->
  resource_cache s = None ->
  (init_attempt (providers e) key).2 = None ->
  resource_cache (run e s).2 =
    Some ([], (Some (llm_config key), Some (script_retriever key)))
  /\ constructions (calls (run e s).2) =
       constructions (calls s) ++
       [NewLLM (llm_config key);
        NewEmbeddings (embeddings_config key);
        OpenChroma (chroma_config (embeddings_config key))]
  /\ llm_api_key (llm_config key) = key
  /\ embedding_api_key (embedding_function (vectorstore (script_retriever key))) = key
  /\ search_k (script_retriever key) = 3.
Proof.
  intros Hk Hc Hinit.
  destruct (execute_cold e s key Hk Hc Hinit) as [Hc1 Hb1].
  assert (Hrun : resource_cache (run e s).2 =
                   Some ([], (Some (llm_config key), Some (script_retriever key)))
                 /\ constructions (calls (run e s).2) =
                      constructions (calls s) ++ construction_calls key).
  { rewrite run_eq.
    destruct (execute e s) as [[[]| | |] s1]; cbn [fst snd] in *; auto.
    destruct (execute_warm (rerun_env e) s1 _ Hc1) as [Hc2 Hb2].
    split; [exact Hc2 | now rewrite Hb2]. }
  destruct Hrun. auto.
Qed.

(** X5: the cached clients are used as they are: with a model and a
    retriever in the cache, a submitted question is answered through them
    whatever key the secrets hold at that moment. *)
Theorem cached_clients_ignore_new_key
    (e : Env) (s : State) (key q : string) shown
    (llm : ChatGoogleGenerativeAI) (r : Retriever) (docs : list Document) :
  resource_cache s = Some (shown, (Some llm, Some r)) ->
  secrets e !! "GOOGLE_API_KEY" = Some key ->
  Str.truthy q = true ->
  similarity_search (providers e) (vectorstore r) q (search_k r) = Ok docs ->
  calls (submit e q s).2 =
  calls s ++ [Search (vectorstore r) q (search_k r);
              Generate llm (chain_prompt docs q)].
Proof.
  intros Hc Hk Hq Hs. unfold submit. rewrite run_eq.
  set (e' := with_widgets e _).
  rewrite execute_eq, (sections_1_3_with_key e' key _ Hk).
  rewrite (load_components_hit e' key (show header (clear_display s)) _ _ Hc).
  cbn [fst snd].
  rewrite (section_5_submit e' llm r q) by (reflexivity || assumption).
  cbv zeta. change (providers e') with (providers e). rewrite Hs.
  destruct (generate _ _ _); eval_state; now rewrite <- app_assoc.
Qed.

(** ** Runs without a request *)

Lemma page_ready_cases (e : Env) (s : State) :
  page_ready e s = true ->
  exists key,
    secrets e !! "GOOGLE_API_KEY" = Some key
    /\ ((exists shown llm r, resource_cache s = Some (shown, (Some llm, Some r)))
        \/ (resource_cache s = None /\ (init_attempt (providers e) key).2 = None)).
Proof.
  unfold page_ready, init_attempt.
  destruct (secrets e !! "GOOGLE_API_KEY") as [key|]; [|discriminate].
  intros H. exists key. split; [reflexivity|].
  destruct (resource_cache s) as [[shown [[llm|] [r|]]]|]; try discriminate.
  - left. eauto.
  - right. split; [reflexivity|].
    destruct (new_llm _ _) as [|?]; [|discriminate].
    destruct (new_embeddings _ _) as [|?]; [|discriminate].
    destruct (open_chroma _ _) as [|?]; [reflexivity|discriminate].
Qed.

Lemma idle_not_reset (w : Widgets) : idle w = true -> reset_clicked w = false.
Proof.
  unfold idle. intros H. apply andb_true_iff in H as [H _].
  now apply negb_true_iff in H.
Qed.

Lemma idle_run_warm (e : Env) (s : State) (key : string) shown
    (llm : ChatGoogleGenerativeAI) (r : Retriever) :
  secrets e !! "GOOGLE_API_KEY" = Some key ->
  resource_cache s = Some (shown, (Some llm, Some r)) ->
  idle (widgets e) = true ->
  run e s =
  (Normal tt,
   with_messages (Some (transcript s))
     (with_display
        (header ++ shown ++ sidebar_view ++ history_view (transcript s) ++
         [(Main, chat_input "Apa yang ingin Anda tanyakan?")]) s)).
Proof.
  intros Hk Hc Hidle. rewrite run_eq.
  rewrite execute_eq, (sections_1_3_with_key e key _ Hk).
  rewrite (load_components_hit e key (show header (clear_display s)) _ _ Hc).
  cbn [fst snd]. rewrite (section_5_idle_run e llm r) by exact Hidle.
  same_result.
Qed.

Lemma idle_run_cold (e : Env) (s : State) (key : string) :
  secrets e !! "GOOGLE_API_KEY" = Some key ->
  resource_cache s = None ->
  (init_attempt (providers e) key).2 = None ->
  idle (widgets e) = true ->
  run e s =
  (Normal tt,
   with_messages (Some (transcript s))
     (with_cache (Some ([], (Some (llm_config key), Some (script_retriever key))))
        (with_calls (calls s ++ construction_calls key)
           (with_display
              (header ++ sidebar_view ++ history_view (transcript s) ++
               [(Main, chat_input "Apa yang ingin Anda tanyakan?")]) s)))).
Proof.
  intros Hk Hc Hinit Hidle. rewrite run_eq.
  destruct (init_attempt_calls (providers e) key) as (_ & _ & _ & Hall).
  specialize (Hall Hinit).
  rewrite execute_eq, (sections_1_3_with_key e key _ Hk).
  rewrite (load_components_cold e key (show header (clear_display s)) Hc).
  destruct (init_attempt (providers e) key) as [cs [ex|]];
    cbn [fst snd] in *; [discriminate|]. subst cs.
  rewrite (section_5_idle_run e _ _) by exact Hidle.
  same_result.
Qed.

(** X6: a run of the ready page in which no widget asks for anything
    completes, queries no provider, keeps the transcript as it was (an
    absent history becomes the empty list), and redraws the sidebar, every
    stored turn in order, oldest first, and the chat box last. *)
Theorem idle_run_is_read_only (e : Env) (s : State) :
  page_ready e s = true ->
  idle (widgets e) = true ->
  (run e s).1 = Normal tt
  /\ session_messages (run e s).2 = Some (transcript s)
  /\ transcript (run e s).2 = transcript s
  /\ queries (calls (run e s).2) = queries (calls s)
  /\ exists cached,
       display (run e s).2 =
       header ++ cached ++ sidebar_view ++ history_view (transcript s) ++
       [(Main, chat_input "Apa yang ingin Anda tanyakan?")].
Proof.
  intros Hready Hidle.
  destruct (page_ready_cases e s Hready)
    as (key & Hk & [(shown & llm & r & Hc) | [Hc Hinit]]).
  - rewrite (idle_run_warm e s key shown llm r Hk Hc Hidle).
    cbn [fst snd]. eval_state. unfold transcript at 2. cbn [default].
    repeat (split; [reflexivity|]). now exists shown.
  - rewrite (idle_run_cold e s key Hk Hc Hinit Hidle).
    cbn [fst snd]. eval_state. unfold transcript at 2. cbn [default].
    repeat (split; [reflexivity|]). split.
    + rewrite queries_app. cbn. now rewrite app_nil_r.
    + now exists [].
Qed.

(** X7: running the ready page again with no request changes nothing: the
    second run ends in the state the first one left. *)
Theorem idle_run_idempotent (e : Env) (s : State) :
  page_ready e s = true ->
  idle (widgets e) = true ->
  run e (run e s).2 = run e s.
Proof.
  intros Hready Hidle.
  destruct (page_ready_cases e s Hready)
    as (key & Hk & [(shown & llm & r & Hc) | [Hc Hinit]]).
  - rewrite (idle_run_warm e s key shown llm r Hk Hc Hidle). cbn [snd].
    erewrite (idle_run_warm e _ key shown llm r Hk) by (reflexivity || assumption).
    unfold transcript. same_result.
  - rewrite (idle_run_cold e s key Hk Hc Hinit Hidle). cbn [snd].
    erewrite (idle_run_warm e _ key [] _ _ Hk) by (reflexivity || assumption).
    unfold transcript. same_result.
Qed.

(** ** Every run *)

(** X8: a run in which the reset button is not clicked never removes or
    rewrites a stored turn: the transcript afterwards is the earlier one
    followed by nothing, by the submitted question alone when the run ends
    in an exception, or by the question and its answer when it completes. *)
Theorem history_is_append_only (e : Env) (s : State) :
  reset_clicked (widgets e) = false ->
  exists added,
    transcript (run e s).2 = transcript s ++ added
    /\ (added = []
        \/ (exists q ex,
              chat_submitted (widgets e) = Some q
              /\ (run e s).1 = Raised ex
              /\ added = [user_turn q])
        \/ (exists q a,
              chat_submitted (widgets e) = Some q
              /\ (run e s).1 = Normal tt
              /\ added = [user_turn q; assistant_turn a])).
Proof.
  intros Hreset.
  destruct (execute_transcript e s Hreset) as (Hno & added & Ht & Hshape).
  assert (Hrun : run e s = execute e s).
  { rewrite run_eq. destruct (execute e s) as [[[]| | |] s1]; try reflexivity.
    now contradiction Hno. }
  rewrite Hrun. eauto.
Qed.

(** X9: a run sends the providers at most one search and, after it, at most
    one completion request: the search is for the submitted question, the
    completion request is sent only when the search returned, and its
    prompt is the template filled with the chunks the search returned and
    that question; a run sends nothing when the reset button is clicked or
    when no non-empty question is submitted. *)
Theorem at_most_one_search_and_generate (e : Env) (s : State) :
  exists qs,
    queries (calls (run e s).2) = queries (calls s) ++ qs
    /\ (reset_clicked (widgets e) = true \/ idle (widgets e) = true -> qs = [])
    /\ (qs = []
        \/ exists q store k,
             chat_submitted (widgets e) = Some q
             /\ Str.truthy q = true
             /\ ((exists ex,
                    similarity_search (providers e) store q k = Err ex
                    /\ qs = [Search store q k])
                 \/ (exists llm docs,
                       similarity_search (providers e) store q k = Ok docs
                       /\ qs = [Search store q k;
                                Generate llm (chain_prompt docs q)]))).
Proof.
  destruct (execute_queries e s) as (qs & Hqs & Hnone & Hshape).
  rewrite run_eq.
  destruct (execute e s) as [[[]| | |] s1] eqn:Hex; cbn [fst snd] in *; eauto.
  destruct (execute_queries (rerun_env e) s1) as (qs2 & Hqs2 & Hnone2 & _).
  rewrite (Hnone2 (or_intror eq_refl)), app_nil_r in Hqs2.
  exists qs. rewrite Hqs2. eauto.
Qed.

(** ** Reset *)

Lemma reset_run_warm (e : Env) (s : State) (key : string) shown
    (llm : ChatGoogleGenerativeAI) (r : Retriever) :
  secrets e !! "GOOGLE_API_KEY" = Some key ->
  resource_cache s = Some (shown, (Some llm, Some r)) ->
  reset_clicked (widgets e) = true ->
  run e s =
  (Normal tt,
   with_messages (Some [])
     (with_display
        (header ++ shown ++ sidebar_view ++
         [(Main, chat_input "Apa yang ingin Anda tanyakan?")]) s)).
Proof.
  intros Hk Hc Hreset. rewrite run_eq.
  rewrite execute_eq, (sections_1_3_with_key e key _ Hk).
  rewrite (load_components_hit e key (show header (clear_display s)) _ _ Hc).
  cbn [fst snd]. rewrite (section_5_reset e llm r) by exact Hreset.
  rewrite execute_eq, (sections_1_3_with_key (rerun_env e) key _ Hk).
  erewrite load_components_hit by exact Hc.
  cbn [fst snd]. rewrite (section_5_idle_run (rerun_env e) llm r) by reflexivity.
  unfold transcript. same_result.
Qed.

Lemma reset_run_cold (e : Env) (s : State) (key : string) :
  secrets e !! "GOOGLE_API_KEY" = Some key ->
  resource_cache s = None ->
  (init_attempt (providers e) key).2 = None ->
  reset_clicked (widgets e) = true ->
  run e s =
  (Normal tt,
   with_messages (Some [])
     (with_cache (Some ([], (Some (llm_config key), Some (script_retriever key))))
        (with_calls (calls s ++ construction_calls key)
           (with_display
              (header ++ sidebar_view ++
               [(Main, chat_input "Apa yang ingin Anda tanyakan?")]) s)))).
Proof.
  intros Hk Hc Hinit Hreset. rewrite run_eq.
  destruct (init_attempt_calls (providers e) key) as (_ & _ & _ & Hall).
  specialize (Hall Hinit).
  rewrite execute_eq, (sections_1_3_with_key e key _ Hk).
  rewrite (load_components_cold e key (show header (clear_display s)) Hc).
  destruct (init_attempt (providers e) key) as [cs [ex|]];
    cbn [fst snd] in *; [discriminate|]. subst cs.
  rewrite (section_5_reset e _ _) by exact Hreset.
  rewrite execute_eq, (sections_1_3_with_key (rerun_env e) key _ Hk).
  erewrite load_components_hit by reflexivity.
  cbn [fst snd]. rewrite (section_5_idle_run (rerun_env e) _ _) by reflexivity.
  unfold transcript. same_result.
Qed.

Lemma reset_transcript_empty (e : Env) (s : State) :
  page_ready e s = true ->
  transcript
    (run (with_widgets e {| reset_clicked := true; chat_submitted := None |}) s).2 = [].
Proof.
  intros Hready.
  set (e1 := with_widgets e _).
  assert (Hready1 : page_ready e1 s = true) by exact Hready.
  destruct (page_ready_cases e1 s Hready1)
    as (key & Hk & [(shown & llm & r & Hc) | [Hc Hinit]]).
  - now rewrite (reset_run_warm e1 s key shown llm r Hk Hc eq_refl).
  - now rewrite (reset_run_cold e1 s key Hk Hc Hinit eq_refl).
Qed.

(** X10: a click on the reset button of the ready page touches nothing but
    the history: no provider is queried, a question delivered by the chat
    box in the same run is dropped, and the page is redrawn with the
    sidebar and the chat box and no turn at all. *)
Theorem reset_run_is_local (e : Env) (s : State) :
  page_ready e s = true ->
  reset_clicked (widgets e) = true ->
  (run e s).1 = Normal tt
  /\ session_messages (run e s).2 = Some []
  /\ queries (calls (run e s).2) = queries (calls s)
  /\ exists cached,
       display (run e s).2 =
       header ++ cached ++ sidebar_view ++
       [(Main, chat_input "Apa yang ingin Anda tanyakan?")].
Proof.
  intros Hready Hreset.
  destruct (page_ready_cases e s Hready)
    as (key & Hk & [(shown & llm & r & Hc) | [Hc Hinit]]).
  - rewrite (reset_run_warm e s key shown llm r Hk Hc Hreset).
    cbn [fst snd]. eval_state.
    repeat (split; [reflexivity|]). now exists shown.
  - rewrite (reset_run_cold e s key Hk Hc Hinit Hreset).
    cbn [fst snd]. eval_state.
    repeat (split; [reflexivity|]). split.
    + rewrite queries_app. cbn. now rewrite app_nil_r.
    + now exists [].
Qed.

(** X11: after a reset of the ready page, a question that is answered
    leaves a transcript of exactly that question and its answer, whatever
    the history was before the reset. *)
Theorem reset_then_submit_starts_over
    (e e' : Env) (s : State) (q : string) :
  page_ready e s = true ->
  Str.truthy q = true ->
  (submit e' q (reset e s).2).1 = Normal tt ->
  exists a,
    answered_by (e', q) a
    /\ transcript (submit e' q (reset e s).2).2 = [user_turn q; assistant_turn a].
Proof.
  intros Hready Hq Hok.
  assert (Hempty : transcript (reset e s).2 = []).
  { unfold reset. now apply reset_transcript_empty. }
  destruct (submit e' q (reset e s).2) as [o s2] eqn:Hsub.
  cbn [fst snd] in *. subst o.
  pose proof (submit_spec e' q _ _ _ Hq Hsub) as (llm & r & docs & a & Hs & Hg & Hm & _).
  exists a. split.
  - exists llm, r, docs. auto.
  - rewrite (transcript_of_messages _ _ Hm), Hempty. reflexivity.
Qed.

(** ** After a failure *)

Lemma alternates_turns (qs ans : list string) (rest : list message) :
  length qs = length ans ->
  alternates "user" "assistant" (turns qs ans ++ rest) =
  alternates "user" "assistant" rest.
Proof.
  revert ans. induction qs as [|q qs IH]; intros [|a ans] Hlen;
    cbn [length] in Hlen; try lia; [reflexivity|].
  cbn [turns app alternates user_turn assistant_turn role].
  rewrite IH by lia. reflexivity.
Qed.

(** X12: a question whose chain raises stays in the transcript without an
    answer, and the next question that is answered is stored right after
    it: two user turns follow each other and the transcript no longer
    alternates, even when it did before. *)
Theorem failure_then_success_breaks_alternation
    (e1 e2 : Env) (q1 q2 : string) (s : State) (ex : exn)
    (qs ans : list string) :
  Str.truthy q1 = true ->
  Str.truthy q2 = true ->
  transcript s = turns qs ans ->
  length qs = length ans ->
  (submit e1 q1 s).1 = Raised ex ->
  (submit e2 q2 (submit e1 q1 s).2).1 = Normal tt ->
  exists a,
    transcript (submit e2 q2 (submit e1 q1 s).2).2 =
      transcript s ++ [user_turn q1; user_turn q2; assistant_turn a]
    /\ alternating (transcript s) = true
    /\ alternating (transcript (submit e2 q2 (submit e1 q1 s).2).2) = false.
Proof.
  intros Hq1 Hq2 Ht Hlen Hfail Hok.
  destruct (submit e1 q1 s) as [o1 s1] eqn:Hsub1. cbn [fst snd] in *. subst o1.
  pose proof (submit_spec e1 q1 s _ _ Hq1 Hsub1) as (_ & _ & Hm1 & _).
  destruct (submit e2 q2 s1) as [o2 s2] eqn:Hsub2. cbn [fst snd] in *. subst o2.
  pose proof (submit_spec e2 q2 s1 _ _ Hq2 Hsub2)
    as (_ & _ & _ & a & _ & _ & Hm2 & _).
  exists a.
  rewrite (transcript_of_messages _ _ Hm2), (transcript_of_messages _ _ Hm1).
  rewrite <- app_assoc. split; [reflexivity|].
  rewrite Ht. split; [apply turns_alternating|].
  unfold alternating. rewrite alternates_turns by assumption. reflexivity.
Qed.

Lemma execute_raised_cache (e : Env) (s : State) (ex : exn) :
  (execute e s).1 = Raised ex ->
  exists shown llm r,
    resource_cache (execute e s).2 = Some (shown, (Some llm, Some r)).
Proof.
  execute_cases e s; cbn [fst snd]; try discriminate; intros _; eval_state; eauto.
Qed.

(** X13: an exception of the chain costs that question only: the run that
    ends with it leaves the components in the cache, so the page is ready
    again for any later run whose secrets hold a key. *)
Theorem failed_query_leaves_page_ready
    (e e' : Env) (q key' : string) (s : State) (ex : exn) :
  (submit e q s).1 = Raised ex ->
  secrets e' !! "GOOGLE_API_KEY" = Some key' ->
  page_ready e' (submit e q s).2 = true.
Proof.
  intros Hfail Hk. unfold submit in *. rewrite run_eq in *.
  set (e1 := with_widgets e _) in *.
  destruct (execute_raised_cache e1 s ex) as (shown & llm & r & Hc).
  - destruct (execute e1 s) as [[[]| | |] s1] eqn:Hex; cbn [fst snd] in *;
      try discriminate; [assumption|].
    exfalso.
    destruct (execute_transcript e1 s eq_refl) as [Hno _].
    rewrite Hex in Hno. now apply Hno.
  - destruct (execute e1 s) as [[[]| | |] s1] eqn:Hex; cbn [fst snd] in *;
      try discriminate.
    + eapply page_ready_cached; eassumption.
    + exfalso.
      destruct (execute_transcript e1 s eq_refl) as [Hno _].
      rewrite Hex in Hno. now apply Hno.
Qed.

(** ** Whole sessions *)

Lemma run_calls_ok (e : Env) (s : State) :
  cache_ok s -> Forall call_ok (calls s) ->
  cache_ok (run e s).2 /\ Forall call_ok (calls (run e s).2).
Proof.
  intros Hc Hcalls.
  destruct (execute_calls_ok e s Hc) as (Hc1 & added & Hadd & Hok).
  assert (H1 : Forall call_ok (calls (execute e s).2)).
  { rewrite Hadd. apply Forall_app. auto. }
  rewrite run_eq.
  destruct (execute e s) as [[[]| | |] s1]; cbn [fst snd] in *; auto.
  destruct (execute_calls_ok (rerun_env e) s1 Hc1) as (Hc2 & added2 & Hadd2 & Hok2).
  split; [exact Hc2|]. rewrite Hadd2. apply Forall_app. auto.
Qed.

Lemma interact_calls_ok (events : list Env) (s : State) :
  cache_ok s -> Forall call_ok (calls s) ->
  cache_ok (interact events s) /\ Forall call_ok (calls (interact events s)).
Proof.
  revert s. induction events as [|e events IH]; intros s Hc Hcalls.
  - auto.
  - cbn [interact fold_left]. apply IH; now apply run_calls_ok.
Qed.

(** X14: in a session started from nothing, whatever the user does and
    whatever the services answer along the way, every search asks the
    store in chroma_db for three chunks, every completion request goes to
    gemini-1.5-flash with a prompt that is the fixed template filled with
    some chunks and a question, and every client is built with the
    settings of section 3. *)
Theorem provider_calls_are_well_formed (events : list Env) :
  Forall call_ok (calls (interact events initial_state)).
Proof.
  apply interact_calls_ok; [exact I | constructor].
Qed.

(** ** Joined context and prompt size *)

(** X15: the joined context does not keep chunk boundaries: two adjacent
    chunks give the same context as the single chunk made of the first,
    the separator and the second. *)
Theorem format_docs_merges_adjacent_chunks (a b : string) (rest : list Document) :
  format_docs ({| page_content := a |} :: {| page_content := b |} :: rest) =
  format_docs ({| page_content := a +:+ separator +:+ b |} :: rest).
Proof.
  destruct rest as [|d rest].
  - reflexivity.
  - rewrite !format_docs_cons2. cbn [page_content].
    now rewrite !str_app_assoc.
Qed.

(** X16: nothing is cut: the prompt built from any chunks and any question
    is longer than the chunks' texts, their separators and the question
    together by the 346 characters of the template's own text. *)
Theorem prompt_keeps_every_character (docs : list Document) (q : string) :
  exists p,
    compose (format_docs docs) q = Ok p
    /\ String.length p =
         346 + (total_length docs + 2 * (length docs - 1)) + String.length q.
Proof.
  exists (chain_prompt docs q). split; [apply compose_eq|].
  unfold chain_prompt. rewrite !str_app_length, format_docs_length.
  replace (String.length instructions) with 305 by reflexivity.
  replace (String.length before_question) with 14 by reflexivity.
  replace (String.length answer_cue) with 27 by reflexivity.
  lia.
Qed.

(** ** What the transcript always satisfies *)

Lemma paired_snoc_user (b : bool) (l : list message) (q : string) :
  paired b (l ++ [user_turn q]) = paired b l.
Proof.
  revert b. induction l as [|m l IH]; intros b.
  - reflexivity.
  - cbn [app paired]. destruct (String.eqb (role m) "user");
      [apply IH | now rewrite IH].
Qed.

Lemma paired_snoc_pair (b : bool) (l : list message) (q a : string) :
  paired b (l ++ [user_turn q; assistant_turn a]) = paired b l.
Proof.
  revert b. induction l as [|m l IH]; intros b.
  - reflexivity.
  - cbn [app paired]. destruct (String.eqb (role m) "user");
      [apply IH | now rewrite IH].
Qed.

Lemma execute_reset (e : Env) (s : State) :
  reset_clicked (widgets e) = true ->
  ((execute e s).1 = RerunRequested /\ session_messages (execute e s).2 = Some [])
  \/ ((execute e s).1 = Stopped
      /\ session_messages (execute e s).2 = session_messages s).
Proof.
  intros Hreset. execute_cases e s; try congruence; cbn [fst snd]; eval_state; auto.
  all: unfold idle in *; rewrite Hreset in *; discriminate.
Qed.

Lemma history_frame (e : Env) (s : State) :
  reset_clicked (widgets e) = false ->
  exists added,
    transcript (run e s).2 = transcript s ++ added
    /\ (added = []
        \/ (exists q, added = [user_turn q])
        \/ (exists q a, added = [user_turn q; assistant_turn a])).
Proof.
  intros Hreset.
  destruct (execute_transcript e s Hreset) as (Hno & added & Ht & Hshape).
  assert (Hrun : run e s = execute e s).
  { rewrite run_eq. destruct (execute e s) as [[[]| | |] s1]; try reflexivity.
    now contradiction Hno. }
  rewrite Hrun. exists added. split; [exact Ht|].
  destruct Hshape as [-> | [(q & ex & _ & _ & ->) | (q & a & _ & _ & ->)]]; eauto.
Qed.

Lemma run_paired (e : Env) (s : State) :
  paired false (transcript s) = true ->
  paired false (transcript (run e s).2) = true.
Proof.
  intros Hp. destruct (reset_clicked (widgets e)) eqn:Hreset.
  - rewrite run_eq.
    destruct (execute_reset e s Hreset) as [[Ho Hm] | [Ho Hm]];
      destruct (execute e s) as [o s1]; cbn [fst snd] in *; subst o;
      cbn [fst snd].
    + destruct (execute_transcript (rerun_env e) s1 eq_refl)
        as (_ & added & Ht & [-> | [(q & ? & Hq & _) | (q & ? & Hq & _)]]);
        try discriminate.
      rewrite Ht, (transcript_of_messages _ _ Hm). reflexivity.
    + unfold transcript in *. now rewrite Hm.
  - destruct (history_frame e s Hreset)
      as (added & Ht & [-> | [(q & -> ) | (q & a & ->)]]); rewrite Ht.
    + now rewrite app_nil_r.
    + now rewrite paired_snoc_user.
    + now rewrite paired_snoc_pair.
Qed.

Lemma interact_paired (events : list Env) (s : State) :
  paired false (transcript s) = true ->
  paired false (transcript (interact events s)) = true.
Proof.
  revert s. induction events as [|e events IH]; intros s Hp; [exact Hp|].
  cbn [interact fold_left]. apply IH. now apply run_paired.
Qed.

(** X17: in a session started from nothing, whatever happens, the
    transcript never begins with an assistant turn and never holds two
    assistant turns in a row: every stored answer directly follows the
    question it answers. *)
Theorem answers_always_follow_a_question (events : list Env) :
  paired false (transcript (interact events initial_state)) = true.
Proof. now apply interact_paired. Qed.

(** ** A question and the page *)

(** X18: when a question is answered, the text drawn in the assistant box
    is the text stored in the new assistant turn, and it is what the
    completion provider returned, with nothing added or removed; the
    earlier turns are redrawn before the new question. *)
Theorem answer_shown_is_answer_stored (e : Env) (q : string) (s : State) :
  Str.truthy q = true ->
  (submit e q s).1 = Normal tt ->
  exists a before,
    answered_by (e, q) a
    /\ last (transcript (submit e q s).2) = Some (assistant_turn a)
    /\ display (submit e q s).2 =
         before ++ sidebar_view ++ history_view (transcript s) ++
         [(Main, chat_input "Apa yang ingin Anda tanyakan?");
          (Main, chat_message "user");
          (Chat "user", markdown q);
          (Main, chat_message "assistant");
          (Chat "assistant", spinner "Mencari jawaban...");
          (Chat "assistant", markdown a)].
Proof.
  intros Hq Hok.
  destruct (submit e q s) as [o s'] eqn:Hsub. cbn [fst snd] in *. subst o.
  pose proof (submit_spec e q s _ _ Hq Hsub)
    as (llm & r & docs & a & Hs & Hg & Hm & _ & before & Hd).
  exists a, before. split; [exists llm, r, docs; auto|]. split.
  - rewrite (transcript_of_messages _ _ Hm).
    change [user_turn q; assistant_turn a]
      with ([user_turn q] ++ [assistant_turn a]).
    rewrite app_assoc. apply last_snoc.
  - rewrite Hd. unfold page_until_answer, sidebar_view.
    rewrite <- !app_assoc. reflexivity.
Qed.

Lemma script_from_env (st : SecretsState) (e e' : Env) :
  providers e' = providers e ->
  widgets e' = widgets e ->
  script_from st e' = script_from st e.
Proof.
  intros Hp Hw.
  unfold script_from, get_components, load_components, load_components_body,
    sidebar, chat, handle_prompt, rag_chain_invoke, retriever_invoke, llm_invoke.
  now rewrite Hp, Hw.
Qed.

(** With a secrets file, [run_from] is [run] on that file's content. *)
Lemma run_from_loaded (content : gmap string string) (e : Env) (s : State) :
  run_from (SecretsLoaded content) e s = run (with_secrets e content) s.
Proof.
  unfold run, run_from, execute_from.
  rewrite (script_from_env _ e (with_secrets e content)) by reflexivity.
  destruct (script_from _ e (clear_display s)) as [[[]| | |] s1]; reflexivity.
Qed.

(** X19: a question sent while the page cannot start is lost: it is neither
    stored nor sent to a provider.  With a secrets file (no key in it, or
    components that cannot be built, or a failed build in the cache) the
    run stops; without a usable secrets file it ends in the exception of
    the failed access, which the script does not catch. *)
Theorem question_is_lost_when_page_cannot_start
    (st : SecretsState) (e : Env) (q : string) (s : State) :
  ready_from st e s = false ->
  (submit_from st e q s).1 =
    match st with
    | SecretsLoaded _ => Stopped
    | SecretsUnavailable msg => Raised (Exception msg)
    end
  /\ session_messages (submit_from st e q s).2 = session_messages s
  /\ queries (calls (submit_from st e q s).2) = queries (calls s).
Proof.
  intros Hnot. unfold submit_from. destruct st as [content|msg].
  - cbn [ready_from] in Hnot. rewrite run_from_loaded, run_eq, execute_eq.
    set (e' := with_secrets _ content).
    pose proof (sections_1_3_spec e' (clear_display s)) as (Hm & Hc & Ho).
    destruct (sections_1_3 e' (clear_display s)) as [[[llm r]| | |] s1];
      cbn [fst snd] in *; try contradiction.
    + destruct Ho as [Hready _].
      change (page_ready e' (clear_display s))
        with (page_ready (with_secrets e content) s) in Hready.
      congruence.
    + auto.
  - rewrite run_without_secrets. auto.
Qed.

(** ** The further properties on the test double *)

Lemma failed_initialisation_stops_witness :
  secrets (Stub.env Scenario.no_store) !! "GOOGLE_API_KEY" = Some "AIza-test"
  /\ resource_cache initial_state = None
  /\ init_attempt (providers (Stub.env Scenario.no_store)) "AIza-test" =
       (construction_calls "AIza-test",
        Some "chroma_db: no such directory")
  /\ (run (Stub.env Scenario.no_store) initial_state).1 = Stopped
  /\ session_messages (run (Stub.env Scenario.no_store) initial_state).2 = None.
Proof.
  assert (H1 : secrets (Stub.env Scenario.no_store) !! "GOOGLE_API_KEY" =
               Some "AIza-test") by reflexivity.
  assert (H2 : resource_cache initial_state = None) by reflexivity.
  assert (H3 : init_attempt (providers (Stub.env Scenario.no_store)) "AIza-test" =
               (construction_calls "AIza-test",
                Some "chroma_db: no such directory"))
    by reflexivity.
  destruct (failed_initialisation_stops _ _ _ _ _ H1 H2 H3)
    as (Hrun & _ & _ & Hm & _).
  repeat (split; [assumption|]). split; [now rewrite Hrun | exact Hm].
Defined.

Lemma failed_initialisation_is_cached_witness :
  secrets (Stub.env Scenario.no_store) !! "GOOGLE_API_KEY" = Some "AIza-test"
  /\ resource_cache initial_state = None
  /\ init_attempt (providers (Stub.env Scenario.no_store)) "AIza-test" =
       (construction_calls "AIza-test",
        Some "chroma_db: no such directory")
  /\ secrets (Scenario.asking Stub.answering "Kapan pendaftaran?") !! "GOOGLE_API_KEY" =
       Some "AIza-test"
  /\ (run (Scenario.asking Stub.answering "Kapan pendaftaran?")
        (run (Stub.env Scenario.no_store) initial_state).2).1 = Stopped.
Proof.
  assert (H1 : secrets (Stub.env Scenario.no_store) !! "GOOGLE_API_KEY" =
               Some "AIza-test") by reflexivity.
  assert (H2 : resource_cache initial_state = None) by reflexivity.
  assert (H3 : init_attempt (providers (Stub.env Scenario.no_store)) "AIza-test" =
               (construction_calls "AIza-test",
                Some "chroma_db: no such directory"))
    by reflexivity.
  assert (H4 : secrets (Scenario.asking Stub.answering "Kapan pendaftaran?")
                 !! "GOOGLE_API_KEY" = Some "AIza-test") by reflexivity.
  destruct (failed_initialisation_is_cached _ _ _ _ _ _ _ H1 H2 H3 H4)
    as (Hstop & _).
  auto.
Defined.

Lemma warm_cache_builds_nothing_witness :
  resource_cache Stub.after_two_questions =
    Some ([], (Some (llm_config "AIza-test"), Some (script_retriever "AIza-test")))
  /\ constructions
       (calls (run (Scenario.asking Stub.answering "Berapa biayanya?")
                 Stub.after_two_questions).2) =
     constructions (calls Stub.after_two_questions).
Proof.
  assert (H : resource_cache Stub.after_two_questions =
              Some ([], (Some (llm_config "AIza-test"),
                         Some (script_retriever "AIza-test"))))
    by (vm_compute; reflexivity).
  destruct (warm_cache_builds_nothing
              (Scenario.asking Stub.answering "Berapa biayanya?") _ _ H) as [_ Hb].
  auto.
Defined.

Lemma cold_start_builds_components_witness :
  secrets (Stub.env Stub.answering) !! "GOOGLE_API_KEY" = Some "AIza-test"
  /\ resource_cache initial_state = None
  /\ (init_attempt (providers (Stub.env Stub.answering)) "AIza-test").2 = None
  /\ resource_cache (run (Stub.env Stub.answering) initial_state).2 =
       Some ([], (Some (llm_config "AIza-test"), Some (script_retriever "AIza-test"))).
Proof.
  assert (H1 : secrets (Stub.env Stub.answering) !! "GOOGLE_API_KEY" =
               Some "AIza-test") by reflexivity.
  assert (H2 : resource_cache initial_state = None) by reflexivity.
  assert (H3 : (init_attempt (providers (Stub.env Stub.answering)) "AIza-test").2 =
               None) by reflexivity.
  destruct (cold_start_builds_components _ _ _ H1 H2 H3) as (Hc & _).
  auto.
Defined.

Lemma cached_clients_ignore_new_key_witness :
  resource_cache Stub.after_two_questions =
    Some ([], (Some (llm_config "AIza-test"), Some (script_retriever "AIza-test")))
  /\ secrets Scenario.rotated_key !! "GOOGLE_API_KEY" = Some "AIza-rotated"
  /\ Str.truthy "Berapa biayanya?" = true
  /\ similarity_search (providers Scenario.rotated_key)
       (vectorstore (script_retriever "AIza-test")) "Berapa biayanya?"
       (search_k (script_retriever "AIza-test")) = Ok (take 3 Stub.chunks)
  /\ calls (submit Scenario.rotated_key "Berapa biayanya?" Stub.after_two_questions).2 =
     calls Stub.after_two_questions ++
     [Search (vectorstore (script_retriever "AIza-test")) "Berapa biayanya?"
        (search_k (script_retriever "AIza-test"));
      Generate (llm_config "AIza-test")
        (chain_prompt (take 3 Stub.chunks) "Berapa biayanya?")].
Proof.
  assert (H1 : resource_cache Stub.after_two_questions =
               Some ([], (Some (llm_config "AIza-test"),
                          Some (script_retriever "AIza-test"))))
    by (vm_compute; reflexivity).
  assert (H2 : secrets Scenario.rotated_key !! "GOOGLE_API_KEY" = Some "AIza-rotated")
    by reflexivity.
  assert (H3 : Str.truthy "Berapa biayanya?" = true) by reflexivity.
  assert (H4 : similarity_search (providers Scenario.rotated_key)
                 (vectorstore (script_retriever "AIza-test")) "Berapa biayanya?"
                 (search_k (script_retriever "AIza-test")) = Ok (take 3 Stub.chunks))
    by reflexivity.
  pose proof (cached_clients_ignore_new_key _ _ _ _ _ _ _ _ H1 H2 H3 H4) as H.
  auto.
Defined.

Lemma idle_run_is_read_only_witness :
  page_ready (Stub.env Stub.answering) Stub.after_two_questions = true
  /\ idle (widgets (Stub.env Stub.answering)) = true
  /\ transcript (run (Stub.env Stub.answering) Stub.after_two_questions).2 =
     transcript Stub.after_two_questions.
Proof.
  assert (H1 : page_ready (Stub.env Stub.answering) Stub.after_two_questions = true)
    by (vm_compute; reflexivity).
  assert (H2 : idle (widgets (Stub.env Stub.answering)) = true) by reflexivity.
  destruct (idle_run_is_read_only _ _ H1 H2) as (_ & _ & Ht & _).
  auto.
Defined.

Lemma idle_run_idempotent_witness :
  page_ready (Stub.env Stub.answering) initial_state = true
  /\ idle (widgets (Stub.env Stub.answering)) = true
  /\ run (Stub.env Stub.answering) (run (Stub.env Stub.answering) initial_state).2 =
     run (Stub.env Stub.answering) initial_state.
Proof.
  assert (H1 : page_ready (Stub.env Stub.answering) initial_state = true)
    by reflexivity.
  assert (H2 : idle (widgets (Stub.env Stub.answering)) = true) by reflexivity.
  pose proof (idle_run_idempotent _ _ H1 H2) as H.
  auto.
Defined.

Lemma history_is_append_only_witness :
  reset_clicked (widgets (Scenario.asking Stub.out_of_quota "Berapa biayanya?")) = false
  /\ exists added,
       transcript (run (Scenario.asking Stub.out_of_quota "Berapa biayanya?")
                     Stub.after_two_questions).2 =
       transcript Stub.after_two_questions ++ added.
Proof.
  assert (H : reset_clicked
                (widgets (Scenario.asking Stub.out_of_quota "Berapa biayanya?")) = false)
    by reflexivity.
  destruct (history_is_append_only _ Stub.after_two_questions H)
    as (added & Ht & _).
  split; [exact H | exists added; exact Ht].
Defined.

Lemma reset_run_is_local_witness :
  page_ready Scenario.resetting Stub.after_two_questions = true
  /\ reset_clicked (widgets Scenario.resetting) = true
  /\ session_messages (run Scenario.resetting Stub.after_two_questions).2 = Some []
  /\ queries (calls (run Scenario.resetting Stub.after_two_questions).2) =
     queries (calls Stub.after_two_questions).
Proof.
  assert (H1 : page_ready Scenario.resetting Stub.after_two_questions = true)
    by (vm_compute; reflexivity).
  assert (H2 : reset_clicked (widgets Scenario.resetting) = true) by reflexivity.
  destruct (reset_run_is_local _ _ H1 H2) as (_ & Hm & Hq & _).
  auto.
Defined.

Lemma reset_then_submit_starts_over_witness :
  page_ready (Stub.env Stub.answering) Stub.after_two_questions = true
  /\ Str.truthy "Berapa biayanya?" = true
  /\ (submit (Stub.env Stub.answering) "Berapa biayanya?"
        (reset (Stub.env Stub.answering) Stub.after_two_questions).2).1 = Normal tt
  /\ length (transcript
               (submit (Stub.env Stub.answering) "Berapa biayanya?"
                  (reset (Stub.env Stub.answering) Stub.after_two_questions).2).2) = 2.
Proof.
  assert (H1 : page_ready (Stub.env Stub.answering) Stub.after_two_questions = true)
    by (vm_compute; reflexivity).
  assert (H2 : Str.truthy "Berapa biayanya?" = true) by reflexivity.
  assert (H3 : (submit (Stub.env Stub.answering) "Berapa biayanya?"
                  (reset (Stub.env Stub.answering) Stub.after_two_questions).2).1 =
               Normal tt) by (vm_compute; reflexivity).
  destruct (reset_then_submit_starts_over _ _ _ _ H1 H2 H3) as (a & _ & Ht).
  repeat (split; [assumption|]). now rewrite Ht.
Defined.

Lemma failure_then_success_breaks_alternation_witness :
  Str.truthy "Kapan pendaftaran?" = true
  /\ Str.truthy "Berapa biayanya?" = true
  /\ transcript initial_state = turns [] []
  /\ length (@nil string) = length (@nil string)
  /\ (submit (Stub.env Stub.out_of_quota) "Kapan pendaftaran?" initial_state).1 =
       Raised (Exception "429 quota exceeded")
  /\ (submit (Stub.env Stub.answering) "Berapa biayanya?"
        (submit (Stub.env Stub.out_of_quota) "Kapan pendaftaran?" initial_state).2).1 =
       Normal tt
  /\ alternating
       (transcript
          (submit (Stub.env Stub.answering) "Berapa biayanya?"
             (submit (Stub.env Stub.out_of_quota) "Kapan pendaftaran?"
                initial_state).2).2) = false.
Proof.
  assert (H1 : Str.truthy "Kapan pendaftaran?" = true) by reflexivity.
  assert (H2 : Str.truthy "Berapa biayanya?" = true) by reflexivity.
  assert (H3 : transcript initial_state = turns [] []) by reflexivity.
  assert (H4 : length (@nil string) = length (@nil string)) by reflexivity.
  assert (H5 : (submit (Stub.env Stub.out_of_quota) "Kapan pendaftaran?"
                  initial_state).1 = Raised (Exception "429 quota exceeded"))
    by (vm_compute; reflexivity).
  assert (H6 : (submit (Stub.env Stub.answering) "Berapa biayanya?"
                  (submit (Stub.env Stub.out_of_quota) "Kapan pendaftaran?"
                     initial_state).2).1 = Normal tt)
    by (vm_compute; reflexivity).
  destruct (failure_then_success_breaks_alternation _ _ _ _ _ _ _ _
              H1 H2 H3 H4 H5 H6) as (a & _ & _ & Hno).
  auto 10.
Defined.

Lemma failed_query_leaves_page_ready_witness :
  (submit (Stub.env Stub.out_of_quota) "Kapan pendaftaran?" initial_state).1 =
    Raised (Exception "429 quota exceeded")
  /\ secrets Scenario.rotated_key !! "GOOGLE_API_KEY" = Some "AIza-rotated"
  /\ page_ready Scenario.rotated_key
       (submit (Stub.env Stub.out_of_quota) "Kapan pendaftaran?" initial_state).2 =
     true.
Proof.
  assert (H1 : (submit (Stub.env Stub.out_of_quota) "Kapan pendaftaran?"
                  initial_state).1 = Raised (Exception "429 quota exceeded"))
    by (vm_compute; reflexivity).
  assert (H2 : secrets Scenario.rotated_key !! "GOOGLE_API_KEY" = Some "AIza-rotated")
    by reflexivity.
  pose proof (failed_query_leaves_page_ready _ _ _ _ _ _ H1 H2) as H.
  auto.
Defined.

Lemma answer_shown_is_answer_stored_witness :
  Str.truthy "Kapan pendaftaran?" = true
  /\ (submit (Stub.env Stub.answering) "Kapan pendaftaran?" initial_state).1 =
       Normal tt
  /\ exists a,
       last (transcript
               (submit (Stub.env Stub.answering) "Kapan pendaftaran?"
                  initial_state).2) = Some (assistant_turn a).
Proof.
  assert (H1 : Str.truthy "Kapan pendaftaran?" = true) by reflexivity.
  assert (H2 : (submit (Stub.env Stub.answering) "Kapan pendaftaran?"
                  initial_state).1 = Normal tt) by (vm_compute; reflexivity).
  destruct (answer_shown_is_answer_stored _ _ _ H1 H2) as (a & before & _ & Hl & _).
  repeat (split; [assumption|]). exists a. exact Hl.
Defined.

Lemma question_is_lost_when_page_cannot_start_witness :
  ready_from (SecretsUnavailable "No secrets found.") (Stub.env Stub.answering)
    Stub.after_two_questions = false
  /\ (submit_from (SecretsUnavailable "No secrets found.") (Stub.env Stub.answering)
        "Kapan pendaftaran?" Stub.after_two_questions).1 =
       Raised (Exception "No secrets found.")
  /\ session_messages
       (submit_from (SecretsUnavailable "No secrets found.") (Stub.env Stub.answering)
          "Kapan pendaftaran?" Stub.after_two_questions).2 =
     session_messages Stub.after_two_questions.
Proof.
  assert (H : ready_from (SecretsUnavailable "No secrets found.")
                (Stub.env Stub.answering) Stub.after_two_questions = false)
    by reflexivity.
  destruct (question_is_lost_when_page_cannot_start _ _ "Kapan pendaftaran?" _ H)
    as (Hs & Hm & _).
  auto.
Defined.
